(** * MBC1 cartridge memory bank controller (src/cartridge/MBC1.go)

    A shallow embedding of the [MBC1] struct and of its methods [Write],
    [Read], [SaveRam] and [LoadRam], followed by the properties of the
    controller that the specification states.

    Conventions of the embedding:
    - a Go [byte] and a [types.Word] (uint16) are integers of [Z]; the
      wrap-around of [Word] arithmetic is written out ([Word_add],
      [Word_sub]);
    - a Go slice is a [list]; indexing and slicing out of range panic in
      Go, here they return [None] ([index], [store], [slice]);
    - a method that mutates the receiver returns the new receiver;
    - the file system that [os.Create] and [ioutil.ReadFile] act on is an
      explicit finite map from file names to nodes;
    - log output is not part of the model. *)

From Stdlib Require Import ZArith.
From stdpp Require Import gmap strings list fin_maps.

Open Scope Z_scope.

(** ** Go slices *)

Module Slice.

(** [s[i]] as an expression: panics unless [0 <= i < len(s)]. *)
Definition index {A : Type} (s : list A) (i : Z) : option A :=
  if (0 <=? i) && (i <? Z.of_nat (length s)) then s !! Z.to_nat i else None.

(** [s[i] = x]: panics unless [0 <= i < len(s)]. *)
Definition store {A : Type} (s : list A) (i : Z) (x : A) : option (list A) :=
  if (0 <=? i) && (i <? Z.of_nat (length s))
  then Some (<[Z.to_nat i := x]> s) else None.

(** [s[lo:hi]]: panics unless [0 <= lo <= hi <= len(s)] (the slices sliced
    in this package come straight from a file or from the caller, and are
    taken to have no spare capacity). *)
Definition slice {A : Type} (s : list A) (lo hi : Z) : option (list A) :=
  if (0 <=? lo) && (lo <=? hi) && (hi <=? Z.of_nat (length s))
  then Some (take (Z.to_nat (hi - lo)) (drop (Z.to_nat lo) s)) else None.

End Slice.

Import Slice.

(** ** types.Word: 16-bit unsigned arithmetic *)

Definition wrap16 (z : Z) : Z := z mod 0x10000.
Definition Word_add (a b : Z) : Z := wrap16 (a + b).
Definition Word_sub (a b : Z) : Z := wrap16 (a - b).

(** ** Files: the part of package os that SaveRam and LoadRam use *)

Inductive error : Type :=
  | ErrNotExist                (* an error for which os.IsNotExist holds *)
  | ErrIO (msg : string)       (* any other error of the operating system *)
  | ErrNew (msg : string).     (* errors.New(msg) *)

(** A name is bound to a regular file with its bytes, or to something that
    can be neither read nor created (a directory, a file without
    permission, a name under a missing directory...) and fails with [e]. *)
Inductive node : Type :=
  | File (data : list Z)
  | Faulty (e : error).

Definition IsNotExist (e : error) : bool :=
  match e with ErrNotExist => true | _ => false end.

Definition ReadFile (fs : gmap string node) (filename : string)
  : list Z + error :=
  match fs !! filename with
  | None => inr ErrNotExist
  | Some (File data) => inl data
  | Some (Faulty e) => inr e
  end.

(** os.Create truncates the file, or creates it. *)
Definition Create (fs : gmap string node) (filename : string)
  : gmap string node + error :=
  match fs !! filename with
  | Some (Faulty e) => inr e
  | _ => inl (<[filename := File []]> fs)
  end.

(** A bufio.Writer on a created file: [Write] appends to what was written
    so far, [Flush] leaves all of it in the file. *)
Definition writer_Write (w : list Z) (p : list Z) : list Z := w ++ p.

Definition writer_Flush (fs : gmap string node) (filename : string)
  (w : list Z) : gmap string node :=
  <[filename := File w]> fs.

(** ** The controller *)

Record MBC1 : Type := mkMBC1 {
  Name : string;
  romBank0 : list Z;
  romBanks : list (list Z);
  ramBanks : list (list Z);
  selectedROMBank : Z;
  selectedRAMBank : Z;
  hasRAM : bool;
  ramEnabled : bool;
  hasBattery : bool;
  MaxMemMode : Z;
  ROMSize : Z;
  RAMSize : Z
}.

Definition set_ramBanks (banks : list (list Z)) (m : MBC1) : MBC1 :=
  mkMBC1 (Name m) (romBank0 m) (romBanks m) banks (selectedROMBank m)
    (selectedRAMBank m) (hasRAM m) (ramEnabled m) (hasBattery m)
    (MaxMemMode m) (ROMSize m) (RAMSize m).

Definition set_ramEnabled (b : bool) (m : MBC1) : MBC1 :=
  mkMBC1 (Name m) (romBank0 m) (romBanks m) (ramBanks m) (selectedROMBank m)
    (selectedRAMBank m) (hasRAM m) b (hasBattery m)
    (MaxMemMode m) (ROMSize m) (RAMSize m).

Definition set_MaxMemMode (mode : Z) (m : MBC1) : MBC1 :=
  mkMBC1 (Name m) (romBank0 m) (romBanks m) (ramBanks m) (selectedROMBank m)
    (selectedRAMBank m) (hasRAM m) (ramEnabled m) (hasBattery m)
    mode (ROMSize m) (RAMSize m).

Definition switchROMBank (m : MBC1) (bank : Z) : MBC1 :=
  mkMBC1 (Name m) (romBank0 m) (romBanks m) (ramBanks m) bank
    (selectedRAMBank m) (hasRAM m) (ramEnabled m) (hasBattery m)
    (MaxMemMode m) (ROMSize m) (RAMSize m).

Definition switchRAMBank (m : MBC1) (bank : Z) : MBC1 :=
  mkMBC1 (Name m) (romBank0 m) (romBanks m) (ramBanks m) (selectedROMBank m)
    bank (hasRAM m) (ramEnabled m) (hasBattery m)
    (MaxMemMode m) (ROMSize m) (RAMSize m).

(** Modelled from the spec: populateRAMBanks is defined in another file of
    package cartridge.  The spec has it allocate the given number of RAM
    banks of 8 KiB each, zero-initialized. *)
Definition populateRAMBanks (noOfBanks : Z) : list (list Z) :=
  replicate (Z.to_nat noOfBanks) (replicate (Z.to_nat 0x2000) 0).

(** Modelled from the spec: populateROMBanks is defined in another file of
    package cartridge.  The spec has it cut the ROM image into an ordered
    sequence of 16 KiB chunks, [noOfBanks] of them. *)
Fixpoint rom_chunks (rom : list Z) (chunk : Z) (n : nat)
  : option (list (list Z)) :=
  match n with
  | O => Some []
  | S k =>
      b ← slice rom chunk (chunk + 0x4000);
      rest ← rom_chunks rom (chunk + 0x4000) k;
      Some (b :: rest)
  end.

Definition populateROMBanks (rom : list Z) (noOfBanks : Z)
  : option (list (list Z)) :=
  if noOfBanks <? 0 then None else rom_chunks rom 0 (Z.to_nat noOfBanks).

(** SaveRam's loop over [m.ramBanks]: every bank in turn goes to the
    bufio writer. *)
Fixpoint SaveRam_loop (banks : list (list Z)) (writer : list Z) : list Z :=
  match banks with
  | [] => writer
  | bank :: rest => SaveRam_loop rest (writer_Write writer bank)
  end.

(** LoadRam's loop, with [n] iterations left: bank [i] becomes
    [fileBytes[chunk : chunk+0x2000]]; [chunk] is a [types.Word].  The four
    banks are slices of the one array of [fileBytes], over ranges that do
    not overlap, and nothing appends to them: a later store in one bank
    never shows in another, so each bank is a list of its own. *)
Fixpoint LoadRam_loop (n : nat) (i chunk : Z) (fileBytes : list Z)
  (banks : list (list Z)) : option (list (list Z)) :=
  match n with
  | O => Some banks
  | S k =>
      b ← slice fileBytes chunk (Word_add chunk 0x2000);
      banks' ← store banks i b;
      LoadRam_loop k (i + 1) (Word_add chunk 0x2000) fileBytes banks'
  end.

(** The [k]-th chunk of 8 KiB of a RAM file. *)
Definition file_chunk (fileBytes : list Z) (k : Z) : list Z :=
  take (Z.to_nat 0x2000) (drop (Z.to_nat (k * 0x2000)) fileBytes).

Section Controller.

(** The two values of [MaxMemMode], declared in package constants.  Go
    rejects a switch with two equal constant cases, so the switches of
    [Write] and [Read] show that they differ. *)
Variables SIXTEENMB_ROM_8KBRAM FOURMB_ROM_32KBRAM : Z.
Hypothesis modes_differ : SIXTEENMB_ROM_8KBRAM ≠ FOURMB_ROM_32KBRAM.

(** [romBank0] and [romBanks] are slices of [rom]; the controller never
    stores in them.  [m.ROMSize/0x4000] is a division of Go ints, which
    truncates. *)
Definition NewMBC1 (rom : list Z) (romSize ramSize : Z) (battery : bool)
  : option MBC1 :=
  let hasram := 0 <? ramSize in
  bank0 ← slice rom 0x0000 0x4000;
  banks ← populateROMBanks rom (Z.quot romSize 0x4000);
  Some {| Name := "CARTRIDGE-MBC1";
          romBank0 := bank0;
          romBanks := banks;
          ramBanks := if hasram then populateRAMBanks 4 else [];
          selectedROMBank := 0;
          selectedRAMBank := 0;
          hasRAM := hasram;
          ramEnabled := hasram;
          hasBattery := battery;
          MaxMemMode := SIXTEENMB_ROM_8KBRAM;
          ROMSize := romSize;
          RAMSize := ramSize |}.

(** [m.ramBanks[bank][addr-0xA000] = value] *)
Definition ram_store (m : MBC1) (bank : Z) (addr value : Z) : option MBC1 :=
  b ← index (ramBanks m) bank;
  b' ← store b (Word_sub addr 0xA000) value;
  banks' ← store (ramBanks m) bank b';
  Some (set_ramBanks banks' m).

(** [m.ramBanks[bank][addr-0xA000]] *)
Definition ram_load (m : MBC1) (bank : Z) (addr : Z) : option Z :=
  b ← index (ramBanks m) bank;
  index b (Word_sub addr 0xA000).

Definition Write (m : MBC1) (addr : Z) (value : Z) : option MBC1 :=
  if (0x0000 <=? addr) && (addr <=? 0x1FFF) then
    if (MaxMemMode m =? FOURMB_ROM_32KBRAM) && hasRAM m then
      if Z.land value 0x0F =? 0x0A
      then Some (set_ramEnabled true m)
      else Some (set_ramEnabled false m)
    else Some m
  else if (0x2000 <=? addr) && (addr <=? 0x3FFF) then
    Some (switchROMBank m (Z.land value 0x1F))
  else if (0x4000 <=? addr) && (addr <=? 0x5FFF) then
    Some (switchRAMBank m (Z.land value 0x03))
  else if (0x6000 <=? addr) && (addr <=? 0x7FFF) then
    if Z.land value 0x01 =? 0x00
    then Some (set_MaxMemMode SIXTEENMB_ROM_8KBRAM m)
    else Some (set_MaxMemMode FOURMB_ROM_32KBRAM m)
  else if (0xA000 <=? addr) && (addr <=? 0xBFFF) then
    if hasRAM m && ramEnabled m then
      if MaxMemMode m =? FOURMB_ROM_32KBRAM then
        ram_store m (selectedRAMBank m) addr value
      else if MaxMemMode m =? SIXTEENMB_ROM_8KBRAM then
        ram_store m 0 addr value
      else Some m
    else Some m
  else Some m.

Definition Read (m : MBC1) (addr : Z) : option Z :=
  if addr <? 0x4000 then index (romBank0 m) addr
  else if (0x4000 <=? addr) && (addr <? 0x8000) then
    b ← index (romBanks m) (selectedROMBank m);
    index b (Word_sub addr 0x4000)
  else if (0xA000 <=? addr) && (addr <=? 0xC000) then
    if hasRAM m && ramEnabled m then
      if MaxMemMode m =? FOURMB_ROM_32KBRAM then
        ram_load m (selectedRAMBank m) addr
      else if MaxMemMode m =? SIXTEENMB_ROM_8KBRAM then
        ram_load m 0 addr
      else Some 0x00
    else Some 0x00
  else Some 0x00.

(** SaveRam returns the file system it leaves and its error result. *)
Definition SaveRam (m : MBC1) (fs : gmap string node) (filename : string)
  : gmap string node * option error :=
  if hasRAM m && hasBattery m then
    match Create fs filename with
    | inr err => (fs, Some err)
    | inl fs' =>
        let writer := SaveRam_loop (ramBanks m) [] in
        (writer_Flush fs' filename writer, None)
    end
  else (fs, None).

(** LoadRam returns the controller it leaves and its error result. *)
Definition LoadRam (m : MBC1) (fs : gmap string node) (filename : string)
  : option (MBC1 * option error) :=
  if hasRAM m && hasBattery m then
    match ReadFile fs filename with
    | inr err =>
        if IsNotExist err then Some (m, None) else Some (m, Some err)
    | inl fileBytes =>
        if negb (Z.of_nat (length fileBytes) =? 0x8000) then
          Some (m, Some (ErrNew "RAM file is not 32768 bytes!"))
        else
          banks' ← LoadRam_loop 4 0 0x0000 fileBytes (ramBanks m);
          Some (set_ramBanks banks' m, None)
    end
  else Some (m, None).

(** ** Runs of the controller *)

(** What a caller does to a controller between two reads: a bus write, or
    a reload of the RAM from a file of some file system. *)
Inductive op : Type :=
  | Op_Write (addr value : Z)
  | Op_LoadRam (fs : gmap string node) (filename : string).

Definition step (m : MBC1) (o : op) : option MBC1 :=
  match o with
  | Op_Write addr value => Write m addr value
  | Op_LoadRam fs filename => fst <$> LoadRam m fs filename
  end.

Fixpoint run (m : MBC1) (ops : list op) : option MBC1 :=
  match ops with
  | [] => Some m
  | o :: rest => m' ← step m o; run m' rest
  end.

(** The controllers that a program can hold: built by [NewMBC1], then
    driven through [Write] (with a 16-bit address and an 8-bit value) and
    [LoadRam].  [Read] and [SaveRam] leave the controller as it is. *)
Inductive reachable : MBC1 → Prop :=
  | reachable_new rom romSize ramSize battery m :
      NewMBC1 rom romSize ramSize battery = Some m →
      reachable m
  | reachable_write m addr value m' :
      reachable m →
      0 ≤ addr < 0x10000 → 0 ≤ value < 0x100 →
      Write m addr value = Some m' →
      reachable m'
  | reachable_load m fs filename m' err :
      reachable m →
      LoadRam m fs filename = Some (m', err) →
      reachable m'.

(** The shape that every reachable controller has. *)
Record wf (m : MBC1) : Prop := mk_wf {
  wf_romBank0 : length (romBank0 m) = Z.to_nat 0x4000;
  wf_romBanks : Forall (λ b, length b = Z.to_nat 0x4000) (romBanks m);
  wf_ramBanks :
    hasRAM m = true →
    length (ramBanks m) = 4%nat ∧
    Forall (λ b, length b = Z.to_nat 0x2000) (ramBanks m);
  wf_ramEnabled : ramEnabled m = true → hasRAM m = true;
  wf_MaxMemMode :
    MaxMemMode m = SIXTEENMB_ROM_8KBRAM ∨ MaxMemMode m = FOURMB_ROM_32KBRAM;
  wf_selectedROMBank : 0 ≤ selectedROMBank m < 32;
  wf_selectedRAMBank : 0 ≤ selectedRAMBank m < 4
}.

(** [o] is a write to the ROM bank select register. *)
Definition rom_select (o : op) : Prop :=
  match o with
  | Op_Write addr _ => 0x2000 ≤ addr ≤ 0x3FFF
  | Op_LoadRam _ _ => False
  end.

(** [o] is a write to the mode select register. *)
Definition mode_select (o : op) : Prop :=
  match o with
  | Op_Write addr _ => 0x6000 ≤ addr ≤ 0x7FFF
  | Op_LoadRam _ _ => False
  end.

(** The RAM bank that the window 0xA000-0xBFFF is mapped to: the selected
    one in 4 MB-ROM/32 KB-RAM mode, bank 0 otherwise. *)
Definition mapped_ram_bank (m : MBC1) : Z :=
  if MaxMemMode m =? FOURMB_ROM_32KBRAM then selectedRAMBank m else 0.

(** [m'] is the cartridge of [m]: the same ROM, the same RAM and battery
    flags, the same declared sizes. *)
Definition same_cartridge (m m' : MBC1) : Prop :=
  Name m' = Name m ∧ romBank0 m' = romBank0 m ∧ romBanks m' = romBanks m ∧
  hasRAM m' = hasRAM m ∧ hasBattery m' = hasBattery m ∧
  ROMSize m' = ROMSize m ∧ RAMSize m' = RAMSize m.

(** A cartridge image of 32 KiB whose byte at offset [i] is [i mod 251], and
    the controller that [NewMBC1] builds from it for a cartridge with RAM
    and a battery. *)
Fixpoint demo_bytes (n : nat) (i : Z) : list Z :=
  match n with
  | O => []
  | S k => i mod 251 :: demo_bytes k (i + 1)
  end.

Definition demo_rom : list Z := demo_bytes (Z.to_nat 0x8000) 0.

Definition demo_cart : MBC1 :=
  {| Name := "CARTRIDGE-MBC1";
     romBank0 := take (Z.to_nat 0x4000) demo_rom;
     romBanks := [take (Z.to_nat 0x4000) demo_rom;
                  drop (Z.to_nat 0x4000) demo_rom];
     ramBanks := populateRAMBanks 4;
     selectedROMBank := 0;
     selectedRAMBank := 0;
     hasRAM := true;
     ramEnabled := true;
     hasBattery := true;
     MaxMemMode := SIXTEENMB_ROM_8KBRAM;
     ROMSize := 0x8000;
     RAMSize := 0x8000 |}.

(** A small hand-made controller state: 2 ROM banks and 4 RAM banks of 2
    and 3 bytes. *)
Definition tiny (mode : Z) (enabled battery : bool) : MBC1 :=
  {| Name := "CARTRIDGE-MBC1";
     romBank0 := [1; 2];
     romBanks := [[1; 2]; [3; 4]];
     ramBanks := [[10; 11; 12]; [20; 21; 22]; [30; 31; 32]; [40; 41; 42]];
     selectedROMBank := 0;
     selectedRAMBank := 2;
     hasRAM := true;
     ramEnabled := enabled;
     hasBattery := battery;
     MaxMemMode := mode;
     ROMSize := 4;
     RAMSize := 12 |}.

(** ** Slices and words *)

Lemma index_Some {A : Type} (s : list A) (i : Z) :
  0 ≤ i < Z.of_nat (length s) → ∃ x, index s i = Some x.
Proof.
  intros Hi. unfold index.
  assert (Hb : (0 <=? i) && (i <? Z.of_nat (length s)) = true)
    by (apply andb_true_iff; split; [apply Z.leb_le | apply Z.ltb_lt]; lia).
  rewrite Hb. apply lookup_lt_is_Some_2. lia.
Qed.

Lemma slice_length {A : Type} (s b : list A) (lo hi : Z) :
  slice s lo hi = Some b → length b = Z.to_nat (hi - lo).
Proof.
  unfold slice. destruct (_ && _) eqn:E; [|done].
  intros [= <-].
  apply andb_true_iff in E as [E1 E3]. apply andb_true_iff in E1 as [E1 E2].
  apply Z.leb_le in E1, E2, E3.
  rewrite length_take, length_drop. lia.
Qed.

Lemma store_in_range {A : Type} (s : list A) (i : Z) (x : A) :
  0 ≤ i < Z.of_nat (length s) → store s i x = Some (<[Z.to_nat i := x]> s).
Proof.
  intros Hi. unfold store.
  assert (Hb : (0 <=? i) && (i <? Z.of_nat (length s)) = true)
    by (apply andb_true_iff; split; [apply Z.leb_le | apply Z.ltb_lt]; lia).
  by rewrite Hb.
Qed.

Lemma store_length {A : Type} (s s' : list A) (i : Z) (x : A) :
  store s i x = Some s' → length s' = length s.
Proof.
  unfold store. destruct (_ && _); [|done].
  intros [= <-]. apply length_insert.
Qed.

Lemma store_Forall {A : Type} (P : A → Prop) (s s' : list A) (i : Z) (x : A) :
  store s i x = Some s' → Forall P s → P x → Forall P s'.
Proof.
  unfold store. destruct (_ && _); [|done].
  intros [= <-] Hs Hx. by apply Forall_insert.
Qed.

Lemma index_Forall {A : Type} (P : A → Prop) (s : list A) (i : Z) (x : A) :
  index s i = Some x → Forall P s → P x.
Proof.
  unfold index. destruct (_ && _); [|done].
  intros Hx Hs. eapply Forall_lookup_1; eauto.
Qed.

Lemma Word_sub_small (addr base : Z) :
  base ≤ addr < 0x10000 → 0 ≤ base → Word_sub addr base = addr - base.
Proof.
  intros H1 H2. unfold Word_sub, wrap16. apply Z.mod_small. lia.
Qed.

Lemma land_mask_bounds (v : Z) (n : Z) :
  0 ≤ n → 0 ≤ Z.land v (Z.ones n) < 2 ^ n.
Proof.
  intros Hn. rewrite Z.land_ones by done. apply Z.mod_pos_bound. lia.
Qed.

(** ** The shape of reachable controllers *)

Lemma rom_chunks_lengths (rom : list Z) (n : nat) (chunk : Z)
    (banks : list (list Z)) :
  rom_chunks rom chunk n = Some banks →
  length banks = n ∧ Forall (λ b, length b = Z.to_nat 0x4000) banks.
Proof.
  revert chunk banks. induction n as [|n IH]; intros chunk banks; simpl.
  - intros [= <-]. by split.
  - destruct (slice rom chunk (chunk + 0x4000)) as [b|] eqn:Hb; [|done].
    destruct (rom_chunks rom (chunk + 0x4000) n) as [rest|] eqn:Hr; [|done].
    simpl. intros [= <-]. destruct (IH _ _ Hr) as [Hlen Hall].
    split; [simpl; by rewrite Hlen|].
    constructor; [|done].
    apply slice_length in Hb. rewrite Hb. f_equal. lia.
Qed.

Lemma populateRAMBanks_shape :
  length (populateRAMBanks 4) = 4%nat ∧
  Forall (λ b, length b = Z.to_nat 0x2000) (populateRAMBanks 4).
Proof.
  unfold populateRAMBanks. split; [by rewrite length_replicate|].
  apply Forall_replicate. by rewrite length_replicate.
Qed.

Lemma NewMBC1_wf rom romSize ramSize battery m :
  NewMBC1 rom romSize ramSize battery = Some m → wf m.
Proof.
  unfold NewMBC1.
  destruct (slice rom 0 0x4000) as [bank0|] eqn:H0; [|done].
  destruct (populateROMBanks rom _) as [banks|] eqn:Hb; [|done].
  simpl. intros [= <-].
  unfold populateROMBanks in Hb. destruct (_ <? 0); [done|].
  apply rom_chunks_lengths in Hb as [_ Hb].
  apply slice_length in H0.
  constructor; simpl; try done; try lia.
  destruct (0 <? ramSize); [|done]. intros _. apply populateRAMBanks_shape.
Qed.

Lemma ram_store_banks m bank addr value m' :
  ram_store m bank addr value = Some m' →
  ∃ banks', m' = set_ramBanks banks' m ∧
    length banks' = length (ramBanks m) ∧
    ∀ n, Forall (λ b, length b = n) (ramBanks m) →
         Forall (λ b, length b = n) banks'.
Proof.
  unfold ram_store.
  destruct (index (ramBanks m) bank) as [b|] eqn:Hb; [|done]. simpl.
  destruct (store b _ value) as [b'|] eqn:Hb'; [|done]. simpl.
  destruct (store (ramBanks m) bank b') as [banks'|] eqn:Hs; [|done]. simpl.
  intros [= <-]. exists banks'. split; [done|]. split.
  - by eapply store_length.
  - intros n Hall. eapply store_Forall; [done..|].
    apply store_length in Hb'. rewrite Hb'.
    by eapply (index_Forall (λ b, length b = n)).
Qed.

Lemma set_ramBanks_wf m banks :
  wf m →
  length banks = length (ramBanks m) →
  (∀ n, Forall (λ b, length b = n) (ramBanks m) →
        Forall (λ b, length b = n) banks) →
  wf (set_ramBanks banks m).
Proof.
  intros [] Hlen Hall. constructor; simpl; try done.
  intros Hram. destruct (wf_ramBanks0 Hram) as [H4 Hb].
  split; [congruence | by apply Hall].
Qed.

Lemma Write_wf m addr value m' :
  wf m → Write m addr value = Some m' → wf m'.
Proof.
  intros Hwf. unfold Write.
  repeat case_match; try (intros [= <-]);
    try done;
    try (intros Hst; apply ram_store_banks in Hst as (banks' & -> & ? & ?);
         by apply set_ramBanks_wf);
    destruct Hwf; constructor; simpl; try done; auto;
    try match goal with
        | H : _ && hasRAM m = true |- _ → hasRAM m = true =>
            intros _; by apply andb_true_iff in H as [_ ?]
        end.
  - change 0x1F with (Z.ones 5). apply (land_mask_bounds value 5). lia.
  - change 0x03 with (Z.ones 2). apply (land_mask_bounds value 2). lia.
Qed.

Lemma LoadRam_loop_shape n i chunk fileBytes banks banks' :
  0 ≤ chunk → chunk + 0x2000 * Z.of_nat n ≤ 0x8000 →
  LoadRam_loop n i chunk fileBytes banks = Some banks' →
  Forall (λ b, length b = Z.to_nat 0x2000) banks →
  length banks' = length banks ∧
  Forall (λ b, length b = Z.to_nat 0x2000) banks'.
Proof.
  revert i chunk banks. induction n as [|n IH]; intros i chunk banks H0 Hc.
  - simpl. by intros [= <-].
  - cbn [LoadRam_loop].
    assert (Hadd : Word_add chunk 0x2000 = chunk + 0x2000)
      by (unfold Word_add, wrap16; apply Z.mod_small; lia).
    rewrite Hadd.
    destruct (slice fileBytes chunk (chunk + 0x2000)) as [b|] eqn:Hb; [|done].
    cbn [mbind option_bind].
    destruct (store banks i b) as [banks1|] eqn:Hs; [|done].
    cbn [mbind option_bind]. intros Hloop Hall.
    apply slice_length in Hb.
    apply IH in Hloop as [Hlen Hall']; [| lia | lia |].
    + split; [|done]. rewrite Hlen. by eapply store_length.
    + eapply store_Forall; [done..|]. rewrite Hb. f_equal. lia.
Qed.

Lemma LoadRam_wf m fs filename m' err :
  wf m → LoadRam m fs filename = Some (m', err) → wf m'.
Proof.
  intros Hwf. unfold LoadRam.
  destruct (hasRAM m && hasBattery m) eqn:Hc; [|by intros [= <- <-]].
  destruct (ReadFile fs filename) as [fileBytes|e].
  - destruct (negb _); [by intros [= <- <-]|].
    destruct (LoadRam_loop 4 0 0 fileBytes (ramBanks m)) as [banks'|] eqn:Hl;
      [|done].
    cbn [mbind option_bind]. intros [= <- <-].
    apply andb_true_iff in Hc as [Hram _].
    destruct (wf_ramBanks m Hwf Hram) as [H4 Hall].
    apply LoadRam_loop_shape in Hl as [Hlen Hall']; [|lia|lia|done].
    destruct Hwf. constructor; simpl; try done.
    intros _. split; [congruence|done].
  - destruct (IsNotExist e); by intros [= <- <-].
Qed.

Lemma reachable_wf m : reachable m → wf m.
Proof.
  induction 1 as [rom romSize ramSize battery m Hnew
                 | m addr value m' _ IH _ _ Hw
                 | m fs filename m' err _ IH Hl].
  - by eapply NewMBC1_wf.
  - by eapply Write_wf.
  - by eapply LoadRam_wf.
Qed.

Lemma slice_file_chunk (fileBytes : list Z) (k : Z) :
  length fileBytes = Z.to_nat 0x8000 → 0 ≤ k < 4 →
  slice fileBytes (k * 0x2000) (Word_add (k * 0x2000) 0x2000)
  = Some (file_chunk fileBytes k).
Proof.
  intros Hlen Hk. unfold slice, file_chunk, Word_add, wrap16.
  rewrite Z.mod_small by lia.
  replace (k * 0x2000 + 0x2000 - k * 0x2000) with 0x2000 by lia.
  assert (Hb : (0 <=? k * 0x2000) && (k * 0x2000 <=? k * 0x2000 + 0x2000)
               && (k * 0x2000 + 0x2000 <=? Z.of_nat (length fileBytes)) = true).
  { rewrite Hlen. repeat (apply andb_true_iff; split); apply Z.leb_le; lia. }
  by rewrite Hb.
Qed.

Lemma LoadRam_loop_4 (fileBytes : list Z) (b0 b1 b2 b3 : list Z)
    (rest : list (list Z)) :
  length fileBytes = Z.to_nat 0x8000 →
  LoadRam_loop 4 0 0x0000 fileBytes (b0 :: b1 :: b2 :: b3 :: rest)
  = Some (file_chunk fileBytes 0 :: file_chunk fileBytes 1
          :: file_chunk fileBytes 2 :: file_chunk fileBytes 3 :: rest).
Proof.
  intros Hlen. cbn [LoadRam_loop].
  pose proof (slice_file_chunk fileBytes 0 Hlen) as H0.
  pose proof (slice_file_chunk fileBytes 1 Hlen) as H1.
  pose proof (slice_file_chunk fileBytes 2 Hlen) as H2.
  pose proof (slice_file_chunk fileBytes 3 Hlen) as H3.
  change (Word_add 0 0x2000) with 0x2000.
  change (Word_add 0x2000 0x2000) with 0x4000.
  change (Word_add 0x4000 0x2000) with 0x6000.
  change (0 * 0x2000) with 0 in H0. change (Word_add 0 0x2000) with 0x2000 in H0.
  change (1 * 0x2000) with 0x2000 in H1.
  change (Word_add 0x2000 0x2000) with 0x4000 in H1.
  change (2 * 0x2000) with 0x4000 in H2.
  change (Word_add 0x4000 0x2000) with 0x6000 in H2.
  change (3 * 0x2000) with 0x6000 in H3.
  rewrite H0, H1, H2, H3 by lia.
  cbn [mbind option_bind].
  rewrite store_in_range by (rewrite ?length_insert; cbn [length]; lia).
  cbn [mbind option_bind].
  rewrite store_in_range by (rewrite ?length_insert; cbn [length]; lia).
  cbn [mbind option_bind].
  rewrite store_in_range by (rewrite ?length_insert; cbn [length]; lia).
  cbn [mbind option_bind].
  rewrite store_in_range by (rewrite ?length_insert; cbn [length]; lia).
  cbn [mbind option_bind].
  reflexivity.
Qed.

(** ** What writes and reloads leave alone *)

(** Settles the address tests of [Write] and [Read] from the bounds at
    hand. *)
Ltac address_tests :=
  repeat (match goal with
          | |- context [Z.leb ?x ?y] => destruct (Z.leb_spec x y); try lia
          | |- context [Z.ltb ?x ?y] => destruct (Z.ltb_spec x y); try lia
          end; cbn [andb]).

Lemma ram_store_rom m bank addr value m' :
  ram_store m bank addr value = Some m' →
  romBank0 m' = romBank0 m ∧ romBanks m' = romBanks m ∧
  selectedROMBank m' = selectedROMBank m.
Proof.
  intros H. by apply ram_store_banks in H as (banks' & -> & _).
Qed.

Lemma Write_rom m addr value m' :
  Write m addr value = Some m' →
  romBank0 m' = romBank0 m ∧ romBanks m' = romBanks m.
Proof.
  unfold Write.
  repeat case_match; try (by intros [= <-]);
    intros Hstore; by apply ram_store_rom in Hstore as (? & ? & ?).
Qed.

Lemma Write_selectedROMBank m addr value m' :
  ¬ (0x2000 ≤ addr ≤ 0x3FFF) →
  Write m addr value = Some m' →
  selectedROMBank m' = selectedROMBank m.
Proof.
  intros Ha. unfold Write. address_tests;
    repeat case_match; try (by intros [= <-]);
    intros Hstore; by apply ram_store_rom in Hstore as (? & ? & ?).
Qed.

Lemma LoadRam_rom m fs filename m' err :
  LoadRam m fs filename = Some (m', err) →
  romBank0 m' = romBank0 m ∧ romBanks m' = romBanks m ∧
  selectedROMBank m' = selectedROMBank m.
Proof.
  unfold LoadRam. repeat case_match; try (by intros [= <- <-]).
  destruct (LoadRam_loop _ _ _ _ _); [|done]. by intros [= <- <-].
Qed.

Lemma step_rom m o m' :
  ¬ rom_select o → step m o = Some m' →
  romBanks m' = romBanks m ∧ selectedROMBank m' = selectedROMBank m.
Proof.
  destruct o as [addr value|fs filename]; simpl; intros Ho Hs.
  - split; [by eapply Write_rom | by eapply Write_selectedROMBank].
  - destruct (LoadRam m fs filename) as [[m1 err]|] eqn:Hl; [|done].
    injection Hs as <-. by apply LoadRam_rom in Hl as (_ & ? & ?).
Qed.

Lemma run_rom ops m m' :
  Forall (λ o, ¬ rom_select o) ops → run m ops = Some m' →
  romBanks m' = romBanks m ∧ selectedROMBank m' = selectedROMBank m.
Proof.
  revert m. induction ops as [|o ops IH]; intros m Hall; simpl.
  - by intros [= <-].
  - destruct (step m o) as [m1|] eqn:Hs; [|done]. simpl.
    apply Forall_cons in Hall as [Ho Hall]. intros Hr.
    apply IH in Hr as [-> ->]; [|done]. by eapply step_rom.
Qed.

Lemma reachable_romBank0_length m :
  reachable m → length (romBank0 m) = Z.to_nat 0x4000.
Proof. intros H. by apply reachable_wf, wf_romBank0 in H. Qed.

(** ** The register writes and the RAM window, case by case *)

Lemma Write_ram_gate m a v :
  0x0000 ≤ a ≤ 0x1FFF →
  Write m a v =
  Some (if (MaxMemMode m =? FOURMB_ROM_32KBRAM) && hasRAM m
        then set_ramEnabled (Z.land v 0x0F =? 0x0A) m else m).
Proof.
  intros Ha. unfold Write. address_tests.
  destruct (_ && _); [|done]. by destruct (_ =? 0x0A).
Qed.

Lemma Write_ram_bank_select m a v :
  0x4000 ≤ a ≤ 0x5FFF →
  Write m a v = Some (switchRAMBank m (Z.land v 0x03)).
Proof. intros Ha. unfold Write. by address_tests. Qed.

Lemma Write_mode_select m a v :
  0x6000 ≤ a ≤ 0x7FFF →
  Write m a v =
  Some (set_MaxMemMode (if Z.land v 0x01 =? 0x00 then SIXTEENMB_ROM_8KBRAM
                        else FOURMB_ROM_32KBRAM) m).
Proof.
  intros Ha. unfold Write. address_tests. by destruct (_ =? 0).
Qed.

Lemma Write_ram_window m a v :
  0xA000 ≤ a ≤ 0xBFFF →
  Write m a v =
  if hasRAM m && ramEnabled m then
    if MaxMemMode m =? FOURMB_ROM_32KBRAM then
      ram_store m (selectedRAMBank m) a v
    else if MaxMemMode m =? SIXTEENMB_ROM_8KBRAM then ram_store m 0 a v
    else Some m
  else Some m.
Proof. intros Ha. unfold Write. by address_tests. Qed.

Lemma Read_ram_window m a :
  0xA000 ≤ a ≤ 0xC000 →
  Read m a =
  if hasRAM m && ramEnabled m then
    if MaxMemMode m =? FOURMB_ROM_32KBRAM then
      ram_load m (selectedRAMBank m) a
    else if MaxMemMode m =? SIXTEENMB_ROM_8KBRAM then ram_load m 0 a
    else Some 0x00
  else Some 0x00.
Proof. intros Ha. unfold Read. by address_tests. Qed.

Lemma mode_8KB_tests mode :
  mode = SIXTEENMB_ROM_8KBRAM →
  (mode =? FOURMB_ROM_32KBRAM) = false ∧ (mode =? SIXTEENMB_ROM_8KBRAM) = true.
Proof.
  intros ->. split; [by apply Z.eqb_neq | apply Z.eqb_refl].
Qed.

Lemma ram_load_Some m bank a :
  wf m → hasRAM m = true → 0 ≤ bank < 4 → 0xA000 ≤ a ≤ 0xBFFF →
  ∃ x, ram_load m bank a = Some x.
Proof.
  intros Hwf Hram Hbank Ha.
  destruct (wf_ramBanks m Hwf Hram) as [H4 Hall].
  destruct (index_Some (ramBanks m) bank) as [b Hb]; [lia|].
  unfold ram_load. rewrite Hb. cbn [mbind option_bind].
  apply index_Some. rewrite Word_sub_small by lia.
  rewrite (index_Forall _ _ _ _ Hb Hall). lia.
Qed.

Lemma index_replicate {A : Type} (n : nat) (x : A) (i : Z) :
  0 ≤ i < Z.of_nat n → index (replicate n x) i = Some x.
Proof.
  intros Hi. unfold index. rewrite length_replicate.
  assert (Hb : (0 <=? i) && (i <? Z.of_nat n) = true)
    by (apply andb_true_iff; split; [apply Z.leb_le | apply Z.ltb_lt]; lia).
  rewrite Hb. apply lookup_replicate_2. lia.
Qed.

Lemma ram_load_fresh m bank a :
  ramBanks m = populateRAMBanks 4 → 0 ≤ bank < 4 → 0xA000 ≤ a ≤ 0xBFFF →
  ram_load m bank a = Some 0.
Proof.
  intros Hbanks Hbank Ha. unfold ram_load, populateRAMBanks in *.
  rewrite Hbanks, index_replicate by lia. cbn [mbind option_bind].
  apply index_replicate. rewrite Word_sub_small by lia. lia.
Qed.

Lemma NewMBC1_fields rom romSize ramSize battery m :
  NewMBC1 rom romSize ramSize battery = Some m →
  hasRAM m = (0 <? ramSize) ∧ ramEnabled m = (0 <? ramSize) ∧
  hasBattery m = battery ∧
  ramBanks m = (if 0 <? ramSize then populateRAMBanks 4 else []) ∧
  selectedROMBank m = 0 ∧ selectedRAMBank m = 0 ∧
  MaxMemMode m = SIXTEENMB_ROM_8KBRAM.
Proof.
  unfold NewMBC1.
  destruct (slice rom 0 0x4000) as [bank0|]; [|done].
  destruct (populateROMBanks rom _) as [banks|]; [|done].
  simpl. by intros [= <-].
Qed.


(** ** The RAM file *)

Lemma SaveRam_loop_concat (banks : list (list Z)) (writer : list Z) :
  SaveRam_loop banks writer = writer ++ concat banks.
Proof.
  revert writer. induction banks as [|bank rest IH]; intros writer; simpl.
  - by rewrite app_nil_r.
  - rewrite IH. unfold writer_Write. by rewrite <- app_assoc.
Qed.

Lemma concat_length (banks : list (list Z)) (n : nat) :
  Forall (λ b, length b = n) banks →
  length (concat banks) = (length banks * n)%nat.
Proof.
  induction 1 as [|b rest Hb _ IH]; simpl; [done|].
  rewrite length_app, IH, Hb. done.
Qed.

Lemma concat_chunk (banks : list (list Z)) (n k : nat) (b : list Z) :
  Forall (λ b, length b = n) banks → banks !! k = Some b →
  take n (drop (k * n) (concat banks)) = b.
Proof.
  intros Hall. revert k. induction Hall as [|b0 rest Hb0 _ IH]; intros k.
  - done.
  - destruct k as [|k]; simpl.
    + intros [= ->]. by apply take_app_length'.
    + intros Hk. rewrite drop_app_add' by done. by apply IH.
Qed.

Lemma file_chunk_concat (banks : list (list Z)) (k : nat) (b : list Z) :
  Forall (λ b, length b = Z.to_nat 0x2000) banks → banks !! k = Some b →
  file_chunk (concat banks) (Z.of_nat k) = b.
Proof.
  intros Hall Hk. unfold file_chunk.
  replace (Z.to_nat (Z.of_nat k * 0x2000)) with (k * Z.to_nat 0x2000)%nat
    by lia.
  by apply concat_chunk.
Qed.

Lemma four_banks (banks : list (list Z)) :
  length banks = 4%nat → ∃ b0 b1 b2 b3, banks = [b0; b1; b2; b3].
Proof.
  destruct banks as [|b0 [|b1 [|b2 [|b3 [|]]]]]; try done.
  intros _. by exists b0, b1, b2, b3.
Qed.

Lemma reachable_ram_shape m :
  reachable m → hasRAM m = true →
  length (ramBanks m) = 4%nat ∧
  Forall (λ b, length b = Z.to_nat 0x2000) (ramBanks m).
Proof. intros Hm. by apply wf_ramBanks, reachable_wf. Qed.


(** ** The properties of the specification *)

(** C1: a write of [v] to 0x2000-0x3FFF selects ROM bank [v & 0x1F], and as
    long as no other write goes to 0x2000-0x3FFF every read of an address
    [b] of 0x4000-0x7FFF gives [romBanks[v & 0x1F][b - 0x4000]], when
    [v & 0x1F] is an index of [romBanks]; the read yields a byte when that
    bank has its 16 KiB. *)
Theorem rom_bank_select_then_read m a v ops m2 b bank :
  0x2000 ≤ a ≤ 0x3FFF →
  Forall (λ o, ¬ rom_select o) ops →
  run m (Op_Write a v :: ops) = Some m2 →
  0x4000 ≤ b < 0x8000 →
  index (romBanks m) (Z.land v 0x1F) = Some bank →
  (∃ m1, Write m a v = Some m1 ∧ selectedROMBank m1 = Z.land v 0x1F) ∧
  selectedROMBank m2 = Z.land v 0x1F ∧
  Read m2 b = index bank (b - 0x4000) ∧
  (length bank = Z.to_nat 0x4000 → ∃ x, Read m2 b = Some x).
Proof.
  intros Ha Hops Hrun Hb Hbank.
  assert (Hw : Write m a v = Some (switchROMBank m (Z.land v 0x1F))).
  { unfold Write. by address_tests. }
  cbn [run step] in Hrun. rewrite Hw in Hrun. cbn [mbind option_bind] in Hrun.
  apply run_rom in Hrun as [Hbanks Hsel]; [|done].
  cbn [switchROMBank romBanks selectedROMBank] in Hbanks, Hsel.
  assert (Hr : Read m2 b = index bank (b - 0x4000)).
  { unfold Read. address_tests.
    rewrite Hbanks, Hsel, Hbank. cbn [mbind option_bind].
    by rewrite Word_sub_small by lia. }
  split; [by eexists|]. split; [done|]. split; [done|].
  intros Hlen. rewrite Hr. apply index_Some. lia.
Qed.

(** C2: in every reachable state a read of an address [a < 0x4000] gives
    [romBank0[a]]. *)
Theorem read_bank0 m a :
  reachable m → 0 ≤ a < 0x4000 →
  ∃ x, index (romBank0 m) a = Some x ∧ Read m a = Some x.
Proof.
  intros Hm Ha.
  destruct (index_Some (romBank0 m) a) as [x Hx].
  { rewrite (reachable_romBank0_length m Hm). lia. }
  exists x. split; [done|]. unfold Read. by address_tests.
Qed.


(** C3, as the code has it: in every reachable state a read of a 16-bit
    address yields a byte, when for the addresses 0x4000-0x7FFF the selected
    ROM bank is an index of [romBanks], and leaving aside the address 0xC000
    while RAM is present and enabled; the addresses 0x8000-0x9FFF and
    0xC001-0xFFFF read 0x00, and so do 0xA000-0xC000 while RAM is absent or
    disabled. *)
Theorem read_yields_byte m a :
  reachable m → 0 ≤ a < 0x10000 →
  (0x4000 ≤ a < 0x8000 →
   selectedROMBank m < Z.of_nat (length (romBanks m))) →
  ¬ (a = 0xC000 ∧ hasRAM m = true ∧ ramEnabled m = true) →
  ∃ x, Read m a = Some x ∧
       (0x8000 ≤ a < 0xA000 ∨ 0xC000 < a ∨
        (0xA000 ≤ a ≤ 0xC000 ∧ (hasRAM m = false ∨ ramEnabled m = false)) →
        x = 0x00).
Proof.
  intros Hm Ha Hsel Hslip. pose proof (reachable_wf m Hm) as Hwf.
  destruct (Z.lt_ge_cases a 0x4000) as [H1|H1].
  { destruct (index_Some (romBank0 m) a) as [x Hx].
    { rewrite (wf_romBank0 m Hwf). lia. }
    exists x. split; [|lia]. unfold Read. by address_tests. }
  destruct (Z.lt_ge_cases a 0x8000) as [H2|H2].
  { pose proof (wf_selectedROMBank m Hwf) as Hs.
    destruct (index_Some (romBanks m) (selectedROMBank m)) as [b Hb];
      [lia|].
    destruct (index_Some b (a - 0x4000)) as [x Hx].
    { rewrite (index_Forall _ _ _ _ Hb (wf_romBanks m Hwf)). lia. }
    exists x. split; [|lia]. unfold Read. address_tests.
    rewrite Hb. cbn [mbind option_bind]. by rewrite Word_sub_small by lia. }
  destruct (Z.lt_ge_cases a 0xA000) as [H3|H3].
  { exists 0. split; [|done]. unfold Read. by address_tests. }
  destruct (Z.lt_ge_cases 0xC000 a) as [H4|H4].
  { exists 0. split; [|done]. unfold Read. by address_tests. }
  rewrite Read_ram_window by lia.
  destruct (hasRAM m) eqn:Hram; [|by exists 0].
  destruct (ramEnabled m) eqn:Hen; [|by exists 0]. cbn [andb].
  assert (Ha' : 0xA000 ≤ a ≤ 0xBFFF).
  { destruct (decide (a = 0xC000)) as [->|]; [by destruct Hslip|lia]. }
  pose proof (wf_selectedRAMBank m Hwf) as Hs.
  assert (Hoff : ∀ x : Z, (0x8000 ≤ a < 0xA000 ∨ 0xC000 < a ∨
      (0xA000 ≤ a ≤ 0xC000 ∧ (true = false ∨ true = false)) → x = 0)).
  { intros x [?|[?|[_ [?|?]]]]; done || lia. }
  destruct (MaxMemMode m =? FOURMB_ROM_32KBRAM).
  { destruct (ram_load_Some m (selectedRAMBank m) a) as [x Hx]; try done.
    exists x. split; [done | apply Hoff]. }
  destruct (MaxMemMode m =? SIXTEENMB_ROM_8KBRAM).
  { destruct (ram_load_Some m 0 a) as [x Hx]; try done.
    exists x. split; [done | apply Hoff]. }
  by exists 0.
Qed.

(** C4: in 16 MB-ROM/8 KB-RAM mode a write to 0x4000-0x5FFF changes
    [selectedRAMBank] and nothing else, and a read or a write of the window
    0xA000-0xBFFF after it goes to [ramBanks[0]]. *)
Theorem ram_bank_0_in_8KB_mode m a v b x bank0 rest :
  MaxMemMode m = SIXTEENMB_ROM_8KBRAM →
  hasRAM m = true → ramEnabled m = true →
  ramBanks m = bank0 :: rest →
  0x4000 ≤ a ≤ 0x5FFF → 0xA000 ≤ b ≤ 0xBFFF →
  ∃ m1, Write m a v = Some m1 ∧
        m1 = switchRAMBank m (Z.land v 0x03) ∧
        Read m1 b = index bank0 (b - 0xA000) ∧
        Write m1 b x =
          (bank0' ← store bank0 (b - 0xA000) x;
           Some (set_ramBanks (bank0' :: rest) m1)).
Proof using modes_differ.
  intros Hmode Hram Hen Hbanks Ha Hb.
  exists (switchRAMBank m (Z.land v 0x03)).
  split; [by apply Write_ram_bank_select|]. split; [done|].
  destruct (mode_8KB_tests _ Hmode) as [H4 H16].
  rewrite Read_ram_window, Write_ram_window by lia.
  cbn [switchRAMBank hasRAM ramEnabled MaxMemMode].
  rewrite Hram, Hen, H4, H16. cbn [andb].
  unfold ram_load, ram_store. cbn [switchRAMBank ramBanks].
  rewrite Hbanks, Word_sub_small by lia.
  split; [done|].
  change (index (bank0 :: rest) 0) with (Some bank0).
  cbn [mbind option_bind].
  destruct (store bank0 (b - 0xA000) x) as [bank0'|]; [|done].
  cbn [mbind option_bind]. rewrite store_in_range by (cbn [length]; lia).
  done.
Qed.

(** C5: a write to 0x0000-0x1FFF in 4 MB-ROM/32 KB-RAM mode with RAM present
    enables the RAM when the low nibble of the value is 0x0A and disables it
    otherwise; in 16 MB-ROM/8 KB-RAM mode, or without RAM, it changes
    nothing.  So a disabled RAM gets enabled if and only if the mode is
    4 MB-ROM/32 KB-RAM, RAM is present and the low nibble is 0x0A. *)
Theorem ram_gate_write m a v :
  0x0000 ≤ a ≤ 0x1FFF →
  (MaxMemMode m = FOURMB_ROM_32KBRAM → hasRAM m = true →
   Z.land v 0x0F = 0x0A → Write m a v = Some (set_ramEnabled true m)) ∧
  (MaxMemMode m = FOURMB_ROM_32KBRAM → hasRAM m = true →
   Z.land v 0x0F ≠ 0x0A → Write m a v = Some (set_ramEnabled false m)) ∧
  (MaxMemMode m = SIXTEENMB_ROM_8KBRAM ∨ hasRAM m = false →
   Write m a v = Some m) ∧
  ∃ m', Write m a v = Some m' ∧
        (ramEnabled m = false →
         (ramEnabled m' = true ↔
          MaxMemMode m = FOURMB_ROM_32KBRAM ∧ hasRAM m = true ∧
          Z.land v 0x0F = 0x0A)).
Proof using modes_differ.
  intros Ha. rewrite Write_ram_gate by done.
  split; [|split; [|split]].
  - intros -> -> ->. by rewrite Z.eqb_refl.
  - intros -> -> Hv. rewrite Z.eqb_refl. apply Z.eqb_neq in Hv.
    by rewrite Hv.
  - intros [Hmode| ->].
    + destruct (mode_8KB_tests _ Hmode) as [-> _]. done.
    + by rewrite andb_false_r.
  - eexists. split; [done|]. intros Hen.
    destruct (Z.eqb_spec (MaxMemMode m) FOURMB_ROM_32KBRAM) as [Hm|Hm];
      destruct (hasRAM m); cbn [andb];
      try (rewrite Hen; split; [done | by intros (? & ? & ?)]).
    cbn [set_ramEnabled ramEnabled].
    destruct (Z.eqb_spec (Z.land v 0x0F) 0x0A); split; try done.
    by intros (_ & _ & ?).
Qed.


(** C6: while RAM is present and disabled a write to 0xA000-0xBFFF changes
    nothing; once the RAM is enabled again (by a write to 0x0000-0x1FFF in
    4 MB-ROM/32 KB-RAM mode) a read of the same address gives what the bank
    held before, which on a controller fresh from [NewMBC1] is 0x00. *)
Theorem disabled_ram_write_discarded m a v :
  hasRAM m = true → ramEnabled m = false → 0xA000 ≤ a ≤ 0xBFFF →
  Write m a v = Some m ∧
  (∀ e ve,
     MaxMemMode m = FOURMB_ROM_32KBRAM →
     0x0000 ≤ e ≤ 0x1FFF → Z.land ve 0x0F = 0x0A →
     ∃ m2, run m [Op_Write a v; Op_Write e ve] = Some m2 ∧
           ramEnabled m2 = true ∧ ramBanks m2 = ramBanks m ∧
           Read m2 a = ram_load m (selectedRAMBank m) a) ∧
  (∀ rom romSize ramSize battery m0 e ve,
     NewMBC1 rom romSize ramSize battery = Some m0 →
     run m0 [Op_Write 0x6000 0x01; Op_Write 0x0000 0x00] = Some m →
     0x0000 ≤ e ≤ 0x1FFF → Z.land ve 0x0F = 0x0A →
     ∃ m2, run m [Op_Write a v; Op_Write e ve] = Some m2 ∧
           Read m2 a = Some 0x00).
Proof.
  intros Hram Hen Ha.
  assert (Hw : Write m a v = Some m).
  { rewrite Write_ram_window by done. by rewrite Hram, Hen. }
  assert (Hre : ∀ e ve,
     MaxMemMode m = FOURMB_ROM_32KBRAM →
     0x0000 ≤ e ≤ 0x1FFF → Z.land ve 0x0F = 0x0A →
     run m [Op_Write a v; Op_Write e ve] = Some (set_ramEnabled true m) ∧
     Read (set_ramEnabled true m) a = ram_load m (selectedRAMBank m) a).
  { intros e ve Hmode He Hve. split.
    - cbn [run step]. rewrite Hw. cbn [mbind option_bind].
      rewrite Write_ram_gate by done.
      by rewrite Hmode, Z.eqb_refl, Hram, Hve.
    - rewrite Read_ram_window by lia.
      cbn [set_ramEnabled hasRAM ramEnabled MaxMemMode selectedRAMBank].
      by rewrite Hram, Hmode, Z.eqb_refl. }
  split; [done|]. split.
  - intros e ve Hmode He Hve. destruct (Hre e ve) as [Hrun Hread]; try done.
    by exists (set_ramEnabled true m).
  - intros rom romSize ramSize battery m0 e ve Hnew Hm He Hve.
    apply NewMBC1_fields in Hnew as (Hr0 & _ & _ & Hbanks & _ & Hsel & _).
    cbn [run step] in Hm.
    rewrite Write_mode_select in Hm by lia. cbn [mbind option_bind] in Hm.
    rewrite Write_ram_gate in Hm by lia.
    change (Z.land 1 1 =? 0) with false in Hm.
    change (Z.land 0 15 =? 10) with false in Hm.
    cbn [set_MaxMemMode MaxMemMode hasRAM mbind option_bind] in Hm.
    rewrite Z.eqb_refl in Hm. cbn [andb] in Hm.
    assert (Hr : hasRAM m0 = true).
    { destruct (hasRAM m0) eqn:E; [done|]. injection Hm as <-.
      cbn in Hram. congruence. }
    rewrite Hr in Hm. injection Hm as Hm.
    rewrite Hr in Hr0. rewrite <- Hr0 in Hbanks.
    destruct (Hre e ve) as [Hrun Hread]; try done; [by rewrite <- Hm|].
    exists (set_ramEnabled true m). split; [done|].
    rewrite Hread. apply ram_load_fresh; [|rewrite <- Hm; cbn; lia|done].
    by rewrite <- Hm.
Qed.

(** C7: with RAM and battery present, [SaveRam] leaves in the file the 4 RAM
    banks one after the other, 32 KiB in all, and [LoadRam] of that file,
    on any controller with RAM and battery, makes its RAM banks the saved
    ones. *)
Theorem save_then_load_roundtrip m m2 fs filename :
  hasRAM m = true → hasBattery m = true →
  length (ramBanks m) = 4%nat →
  Forall (λ b, length b = Z.to_nat 0x2000) (ramBanks m) →
  (∀ e, fs !! filename ≠ Some (Faulty e)) →
  hasRAM m2 = true → hasBattery m2 = true →
  length (ramBanks m2) = 4%nat →
  ∃ fs', SaveRam m fs filename = (fs', None) ∧
         ReadFile fs' filename = inl (concat (ramBanks m)) ∧
         length (concat (ramBanks m)) = Z.to_nat 0x8000 ∧
         LoadRam m2 fs' filename = Some (set_ramBanks (ramBanks m) m2, None).
Proof.
  intros Hram Hbat H4 Hall Hfs Hram2 Hbat2 H42.
  assert (Hlen : length (concat (ramBanks m)) = Z.to_nat 0x8000).
  { rewrite (concat_length _ _ Hall), H4. lia. }
  assert (Hcreate : Create fs filename = inl (<[filename := File []]> fs)).
  { unfold Create. destruct (fs !! filename) as [[data|e]|] eqn:Hf; try done.
    by destruct (Hfs e). }
  exists (<[filename := File (concat (ramBanks m))]> (<[filename := File []]> fs)).
  assert (Hread : ReadFile
            (<[filename := File (concat (ramBanks m))]>
               (<[filename := File []]> fs)) filename
          = inl (concat (ramBanks m))).
  { unfold ReadFile. by rewrite lookup_insert_eq. }
  split; [|split; [done|split; [done|]]].
  - unfold SaveRam. rewrite Hram, Hbat, Hcreate. cbn [andb].
    by rewrite SaveRam_loop_concat.
  - unfold LoadRam. rewrite Hram2, Hbat2, Hread, Hlen. cbn [andb].
    rewrite Z2Nat.id, Z.eqb_refl by lia. cbn [negb].
    destruct (four_banks _ H42) as (c0 & c1 & c2 & c3 & ->).
    rewrite LoadRam_loop_4 by done. cbn [mbind option_bind].
    destruct (four_banks _ H4) as (b0 & b1 & b2 & b3 & Hb).
    rewrite Hb in Hall |- *.
    pose proof (file_chunk_concat _ 0 b0 Hall eq_refl) as E0.
    pose proof (file_chunk_concat _ 1 b1 Hall eq_refl) as E1.
    pose proof (file_chunk_concat _ 2 b2 Hall eq_refl) as E2.
    pose proof (file_chunk_concat _ 3 b3 Hall eq_refl) as E3.
    change (Z.of_nat 0) with 0 in E0. change (Z.of_nat 1) with 1 in E1.
    change (Z.of_nat 2) with 2 in E2. change (Z.of_nat 3) with 3 in E3.
    by rewrite E0, E1, E2, E3.
Qed.

(** C8: with RAM and battery present, [LoadRam] of an existing file whose
    length is not 32768 returns an error and leaves the controller, its RAM
    banks included, as it was. *)
Theorem load_wrong_length m fs filename fileBytes :
  hasRAM m = true → hasBattery m = true →
  ReadFile fs filename = inl fileBytes →
  length fileBytes ≠ Z.to_nat 0x8000 →
  LoadRam m fs filename
  = Some (m, Some (ErrNew "RAM file is not 32768 bytes!")).
Proof.
  intros Hram Hbat Hread Hlen. unfold LoadRam.
  rewrite Hram, Hbat, Hread. cbn [andb].
  destruct (Z.eqb_spec (Z.of_nat (length fileBytes)) 0x8000); [lia|done].
Qed.

(** C9: with RAM and battery present, [LoadRam] of a file that does not
    exist returns no error and leaves the controller as it was; on a
    controller fresh from [NewMBC1] the RAM banks are then still all
    zero. *)
Theorem load_missing_file m fs filename e :
  hasRAM m = true → hasBattery m = true →
  ReadFile fs filename = inr e → IsNotExist e = true →
  LoadRam m fs filename = Some (m, None) ∧
  (∀ rom romSize ramSize battery,
     NewMBC1 rom romSize ramSize battery = Some m →
     ramBanks m = replicate 4 (replicate (Z.to_nat 0x2000) 0x00)).
Proof.
  intros Hram Hbat Hread He. split.
  - unfold LoadRam. by rewrite Hram, Hbat, Hread, He.
  - intros rom romSize ramSize battery Hnew.
    apply NewMBC1_fields in Hnew as (Hr & _ & _ & -> & _).
    rewrite Hram in Hr. by rewrite <- Hr.
Qed.

(** C10: without RAM, or without battery, [LoadRam] returns no error and
    leaves the controller as it was, whatever the file holds: its length is
    not looked at. *)
Theorem load_without_ram_or_battery m fs filename :
  hasRAM m = false ∨ hasBattery m = false →
  LoadRam m fs filename = Some (m, None).
Proof.
  intros [H|H]; unfold LoadRam; rewrite H; [done|by rewrite andb_false_r].
Qed.


(** ** Further properties of the bus interface *)

Lemma index_store_eq {A : Type} (s s' : list A) (i : Z) (x : A) :
  store s i x = Some s' → index s' i = Some x.
Proof.
  unfold store, index. destruct (_ && _) eqn:E; [|done].
  intros [= <-]. rewrite length_insert, E.
  apply andb_true_iff in E as [E0 E]. apply Z.leb_le in E0.
  apply Z.ltb_lt in E. apply list_lookup_insert_eq. lia.
Qed.

Lemma index_store_ne {A : Type} (s s' : list A) (i j : Z) (x : A) :
  store s i x = Some s' → j ≠ i → index s' j = index s j.
Proof.
  unfold store, index. destruct (_ && _) eqn:E; [|done].
  intros [= <-] Hne. rewrite length_insert.
  destruct ((0 <=? j) && _) eqn:Ej; [|done].
  apply andb_true_iff in E as [E _]. apply Z.leb_le in E.
  apply andb_true_iff in Ej as [Ej _]. apply Z.leb_le in Ej.
  apply list_lookup_insert_ne. lia.
Qed.

Lemma ram_store_Some m bank a v :
  wf m → hasRAM m = true → 0 ≤ bank < 4 → 0xA000 ≤ a ≤ 0xBFFF →
  ∃ m', ram_store m bank a v = Some m'.
Proof.
  intros Hwf Hram Hbank Ha.
  destruct (wf_ramBanks m Hwf Hram) as [H4 Hall].
  destruct (index_Some (ramBanks m) bank) as [b Hb]; [lia|].
  pose proof (index_Forall _ _ _ _ Hb Hall) as Hlen. simpl in Hlen.
  unfold ram_store. rewrite Hb. cbn [mbind option_bind].
  rewrite Word_sub_small by lia.
  rewrite store_in_range by lia. cbn [mbind option_bind].
  rewrite store_in_range by lia. cbn [mbind option_bind]. by eexists.
Qed.

Lemma ram_load_store_eq m bank a v m' :
  ram_store m bank a v = Some m' → ram_load m' bank a = Some v.
Proof.
  unfold ram_store, ram_load.
  destruct (index (ramBanks m) bank) as [b|]; [|done].
  cbn [mbind option_bind].
  destruct (store b _ v) as [b'|] eqn:Hb'; [|done]. cbn [mbind option_bind].
  destruct (store (ramBanks m) bank b') as [banks'|] eqn:Hs; [|done].
  cbn [mbind option_bind]. intros [= <-]. cbn [set_ramBanks ramBanks].
  rewrite (index_store_eq _ _ _ _ Hs). cbn [mbind option_bind].
  by eapply index_store_eq.
Qed.

Lemma ram_load_store_ne m bank a v m' bank' a' :
  ram_store m bank a v = Some m' →
  0xA000 ≤ a < 0x10000 → 0xA000 ≤ a' < 0x10000 →
  bank' ≠ bank ∨ a' ≠ a →
  ram_load m' bank' a' = ram_load m bank' a'.
Proof.
  unfold ram_store, ram_load.
  destruct (index (ramBanks m) bank) as [b|] eqn:Hb; [|done].
  cbn [mbind option_bind].
  destruct (store b _ v) as [b'|] eqn:Hb'; [|done]. cbn [mbind option_bind].
  destruct (store (ramBanks m) bank b') as [banks'|] eqn:Hs; [|done].
  cbn [mbind option_bind]. intros [= <-] Ha Ha' Hne.
  cbn [set_ramBanks ramBanks].
  destruct (decide (bank' = bank)) as [->|Hbank].
  - rewrite (index_store_eq _ _ _ _ Hs), Hb. cbn [mbind option_bind].
    eapply index_store_ne; [done|].
    rewrite !Word_sub_small by lia. destruct Hne; [done|lia].
  - by rewrite (index_store_ne _ _ _ _ _ Hs Hbank).
Qed.

Lemma Write_ram_mapped m a v :
  wf m → 0xA000 ≤ a ≤ 0xBFFF → hasRAM m = true → ramEnabled m = true →
  Write m a v = ram_store m (mapped_ram_bank m) a v.
Proof.
  intros Hwf Ha Hram Hen. rewrite Write_ram_window by done.
  rewrite Hram, Hen. cbn [andb]. unfold mapped_ram_bank.
  destruct (Z.eqb_spec (MaxMemMode m) FOURMB_ROM_32KBRAM) as [|Hne]; [done|].
  destruct (wf_MaxMemMode m Hwf) as [->|]; [|done]. by rewrite Z.eqb_refl.
Qed.

Lemma Read_ram_mapped m a :
  wf m → 0xA000 ≤ a ≤ 0xC000 → hasRAM m = true → ramEnabled m = true →
  Read m a = ram_load m (mapped_ram_bank m) a.
Proof.
  intros Hwf Ha Hram Hen. rewrite Read_ram_window by done.
  rewrite Hram, Hen. cbn [andb]. unfold mapped_ram_bank.
  destruct (Z.eqb_spec (MaxMemMode m) FOURMB_ROM_32KBRAM) as [|Hne]; [done|].
  destruct (wf_MaxMemMode m Hwf) as [->|]; [|done]. by rewrite Z.eqb_refl.
Qed.

Lemma mapped_ram_bank_range m : wf m → 0 ≤ mapped_ram_bank m < 4.
Proof.
  intros Hwf. unfold mapped_ram_bank.
  destruct (_ =? _); [by apply wf_selectedRAMBank | lia].
Qed.

Lemma Write_outside_ram m a v :
  ¬ (0xA000 ≤ a ≤ 0xBFFF) → ∃ m', Write m a v = Some m'.
Proof.
  intros Ha. unfold Write. address_tests; repeat case_match; by eexists.
Qed.

(** X1: in a reachable state with RAM present and enabled, a byte written
    to an address of 0xA000-0xBFFF is the byte read back from it. *)
Theorem ram_write_then_read m a v :
  reachable m → hasRAM m = true → ramEnabled m = true →
  0xA000 ≤ a ≤ 0xBFFF →
  ∃ m', Write m a v = Some m' ∧ Read m' a = Some v.
Proof.
  intros Hm Hram Hen Ha. pose proof (reachable_wf m Hm) as Hwf.
  destruct (ram_store_Some m (mapped_ram_bank m) a v) as [m' Hst];
    [done | done | by apply mapped_ram_bank_range | done |].
  assert (Hw : Write m a v = Some m') by (by rewrite Write_ram_mapped).
  exists m'. split; [done|].
  pose proof (Write_wf _ _ _ _ Hwf Hw) as Hwf'.
  pose proof Hst as Hst'.
  apply ram_store_banks in Hst' as (banks' & Heq & _).
  rewrite Read_ram_mapped; [| done | lia | by rewrite Heq | by rewrite Heq].
  replace (mapped_ram_bank m') with (mapped_ram_bank m) by (by rewrite Heq).
  by eapply ram_load_store_eq.
Qed.

(** X2: a write to an address [a] of 0xA000-0xBFFF changes what no other
    address reads. *)
Theorem ram_write_other_addresses m a v m' b :
  0xA000 ≤ a ≤ 0xBFFF → Write m a v = Some m' →
  0 ≤ b < 0x10000 → b ≠ a →
  Read m' b = Read m b.
Proof.
  intros Ha Hw Hb Hne. rewrite Write_ram_window in Hw by done.
  assert (Hstore : ∀ bank, ram_store m bank a v = Some m' →
                           Read m' b = Read m b).
  { intros bank Hst. pose proof Hst as Hst'.
    apply ram_store_banks in Hst' as (banks' & -> & _).
    unfold Read. cbn [set_ramBanks romBank0 romBanks selectedROMBank hasRAM
                      ramEnabled MaxMemMode selectedRAMBank].
    address_tests; try done.
    rewrite !(ram_load_store_ne _ _ _ _ _ _ b Hst) by (lia || by right).
    done. }
  destruct (hasRAM m && ramEnabled m); [|by injection Hw as <-].
  destruct (MaxMemMode m =? FOURMB_ROM_32KBRAM); [by eapply Hstore|].
  destruct (MaxMemMode m =? SIXTEENMB_ROM_8KBRAM); [by eapply Hstore|].
  by injection Hw as <-.
Qed.

(** X3: in 4 MB-ROM/32 KB-RAM mode with RAM enabled, a byte written through
    the selected bank does not show through another bank: once bank
    [j & 0x03] is selected instead, the address reads what that bank held
    before the write. *)
Theorem ram_bank_isolation m a v s j m1 :
  MaxMemMode m = FOURMB_ROM_32KBRAM →
  hasRAM m = true → ramEnabled m = true →
  0xA000 ≤ a ≤ 0xBFFF → 0x4000 ≤ s ≤ 0x5FFF →
  Z.land j 0x03 ≠ selectedRAMBank m →
  Write m a v = Some m1 →
  ∃ m2, Write m1 s j = Some m2 ∧
        Read m2 a = ram_load m (Z.land j 0x03) a.
Proof.
  intros Hmode Hram Hen Ha Hs Hj Hw.
  rewrite Write_ram_window in Hw by done.
  rewrite Hram, Hen, Hmode, Z.eqb_refl in Hw. cbn [andb] in Hw.
  exists (switchRAMBank m1 (Z.land j 0x03)).
  split; [by apply Write_ram_bank_select|].
  pose proof Hw as Hw'. apply ram_store_banks in Hw' as (banks' & Heq & _).
  rewrite Read_ram_window by lia. subst m1.
  cbn [switchRAMBank set_ramBanks hasRAM ramEnabled MaxMemMode
       selectedRAMBank].
  rewrite Hram, Hen, Hmode, Z.eqb_refl. cbn [andb].
  change (ram_load (mkMBC1 _ _ _ banks' _ _ _ _ _ _ _ _) (Z.land j 3) a)
    with (ram_load (set_ramBanks banks' m) (Z.land j 3) a).
  apply (ram_load_store_ne _ _ _ _ _ _ _ Hw); [lia | lia | by left].
Qed.

(** X4: in a reachable state a write of any value to any 16-bit address
    goes through: no index of [Write] is out of range. *)
Theorem write_never_panics m a v :
  reachable m → 0 ≤ a < 0x10000 → ∃ m', Write m a v = Some m'.
Proof.
  intros Hm Ha. pose proof (reachable_wf m Hm) as Hwf.
  destruct (decide (0xA000 ≤ a ≤ 0xBFFF)) as [Hwin|Hwin];
    [|by apply Write_outside_ram].
  destruct (hasRAM m) eqn:Hram; [destruct (ramEnabled m) eqn:Hen|].
  - rewrite Write_ram_mapped by done.
    apply ram_store_Some; try done. by apply mapped_ram_bank_range.
  - rewrite Write_ram_window, Hram, Hen by done. by eexists.
  - rewrite Write_ram_window, Hram by done. by eexists.
Qed.

(** X5: in a reachable state [LoadRam] returns, whatever the file system
    holds: with a file of 32768 bytes its four slices and the four bank
    stores are in range. *)
Theorem load_never_panics m fs filename :
  reachable m → ∃ m' err, LoadRam m fs filename = Some (m', err).
Proof.
  intros Hm. pose proof (reachable_wf m Hm) as Hwf. unfold LoadRam.
  destruct (hasRAM m) eqn:Hram; [|by eexists _, _].
  destruct (hasBattery m); cbn [andb]; [|by eexists _, _].
  destruct (ReadFile fs filename) as [fileBytes|e];
    [|destruct (IsNotExist e); by eexists _, _].
  destruct (Z.eqb_spec (Z.of_nat (length fileBytes)) 0x8000) as [Hlen|];
    cbn [negb]; [|by eexists _, _].
  destruct (wf_ramBanks m Hwf Hram) as [H4 _].
  destruct (four_banks _ H4) as (b0 & b1 & b2 & b3 & ->).
  rewrite LoadRam_loop_4 by lia. cbn [mbind option_bind]. by eexists _, _.
Qed.

(** X6: what every reachable controller keeps: bank 0 of the ROM has
    16 KiB; with RAM there are 4 RAM banks of 8 KiB; the RAM is enabled only
    if present; the mode is one of the two; the selected ROM bank is below
    32 and the selected RAM bank below 4. *)
Theorem reachable_invariant m :
  reachable m →
  length (romBank0 m) = Z.to_nat 0x4000 ∧
  (hasRAM m = true →
   length (ramBanks m) = 4%nat ∧
   Forall (λ b, length b = Z.to_nat 0x2000) (ramBanks m)) ∧
  (ramEnabled m = true → hasRAM m = true) ∧
  (MaxMemMode m = SIXTEENMB_ROM_8KBRAM ∨
   MaxMemMode m = FOURMB_ROM_32KBRAM) ∧
  0 ≤ selectedROMBank m < 32 ∧
  0 ≤ selectedRAMBank m < 4.
Proof.
  intros Hm. by destruct (reachable_wf m Hm).
Qed.


Lemma Write_same_cartridge m a v m' :
  Write m a v = Some m' → same_cartridge m m'.
Proof.
  unfold Write.
  repeat case_match; try (by intros [= <-]);
    intros Hstore; by apply ram_store_banks in Hstore as (? & -> & _).
Qed.

Lemma LoadRam_only_ramBanks m fs filename m' err :
  LoadRam m fs filename = Some (m', err) →
  ∃ banks', m' = set_ramBanks banks' m ∧ (err ≠ None → banks' = ramBanks m).
Proof.
  unfold LoadRam.
  repeat case_match;
    try (intros [= <- <-]; exists (ramBanks m); by destruct m).
  destruct (LoadRam_loop _ _ _ _ _) as [banks'|]; [|done].
  cbn [mbind option_bind]. intros [= <- <-]. by exists banks'.
Qed.

Lemma step_same_cartridge m o m' :
  step m o = Some m' → same_cartridge m m'.
Proof.
  destruct o as [a v|fs filename]; cbn [step].
  - apply Write_same_cartridge.
  - destruct (LoadRam m fs filename) as [[m1 err]|] eqn:Hl; [|done].
    intros [= <-]. by apply LoadRam_only_ramBanks in Hl as (banks' & -> & _).
Qed.

(** X7: bus writes and RAM reloads, in any number and order, leave the
    cartridge as it was built: its name, ROM bank 0 and ROM banks, RAM and
    battery flags and declared sizes. *)
Theorem run_same_cartridge m ops m' :
  run m ops = Some m' → same_cartridge m m'.
Proof.
  revert m. induction ops as [|o ops IH]; intros m; cbn [run].
  - by intros [= <-].
  - destruct (step m o) as [m1|] eqn:Hs; [|done]. cbn [mbind option_bind].
    intros Hr. apply step_same_cartridge in Hs. apply IH in Hr.
    unfold same_cartridge in *. intuition congruence.
Qed.

(** ** Further properties of the RAM file *)

Lemma index_Some_iff {A : Type} (s : list A) (i : Z) (x : A) :
  index s i = Some x ↔ 0 ≤ i ∧ s !! Z.to_nat i = Some x.
Proof.
  unfold index. split.
  - destruct (_ && _) eqn:E; [|done]. intros Hx.
    apply andb_true_iff in E as [E _]. apply Z.leb_le in E. done.
  - intros [Hi Hx]. pose proof (lookup_lt_Some _ _ _ Hx) as Hlt.
    assert (Hb : (0 <=? i) && (i <? Z.of_nat (length s)) = true)
      by (apply andb_true_iff; split; [apply Z.leb_le|apply Z.ltb_lt]; lia).
    by rewrite Hb.
Qed.

Lemma concat_lookup (banks : list (list Z)) (n k off : nat) (b : list Z)
    (x : Z) :
  Forall (λ b, length b = n) banks → banks !! k = Some b →
  b !! off = Some x →
  concat banks !! (k * n + off)%nat = Some x.
Proof.
  intros Hall Hk Hoff.
  pose proof (lookup_lt_Some _ _ _ Hoff) as Hlt.
  rewrite (Forall_lookup_1 _ _ _ _ Hall Hk) in Hlt.
  rewrite <- (concat_chunk banks n k b Hall Hk) in Hoff.
  by rewrite lookup_take_lt, lookup_drop in Hoff.
Qed.

Lemma four_chunks (l : list Z) (n : nat) :
  length l = (4 * n)%nat →
  take n l ++ take n (drop n l) ++ take n (drop (2 * n) l)
    ++ take n (drop (3 * n) l) = l.
Proof.
  intros Hlen. rewrite !app_assoc.
  rewrite take_take_drop.
  replace (2 * n)%nat with (n + n)%nat by lia. rewrite take_take_drop.
  replace (3 * n)%nat with (n + n + n)%nat by lia. rewrite take_take_drop.
  apply take_ge. lia.
Qed.

Lemma file_chunks_concat (fileBytes : list Z) :
  length fileBytes = Z.to_nat 0x8000 →
  concat [file_chunk fileBytes 0; file_chunk fileBytes 1;
          file_chunk fileBytes 2; file_chunk fileBytes 3] = fileBytes.
Proof.
  intros Hlen. unfold file_chunk. cbn [concat]. rewrite app_nil_r.
  change (Z.to_nat (0 * 0x2000)) with 0%nat. rewrite drop_0.
  replace (Z.to_nat (1 * 0x2000)) with (Z.to_nat 0x2000) by lia.
  replace (Z.to_nat (2 * 0x2000)) with (2 * Z.to_nat 0x2000)%nat by lia.
  replace (Z.to_nat (3 * 0x2000)) with (3 * Z.to_nat 0x2000)%nat by lia.
  apply four_chunks. lia.
Qed.

Lemma Create_fresh fs filename :
  (∀ e, fs !! filename ≠ Some (Faulty e)) →
  Create fs filename = inl (<[filename := File []]> fs).
Proof.
  intros Hfs. unfold Create.
  destruct (fs !! filename) as [[data|e]|] eqn:Hf; try done.
  by destruct (Hfs e).
Qed.

Lemma SaveRam_file m fs filename :
  hasRAM m = true → hasBattery m = true →
  (∀ e, fs !! filename ≠ Some (Faulty e)) →
  SaveRam m fs filename
  = (<[filename := File (concat (ramBanks m))]> fs, None).
Proof.
  intros Hram Hbat Hfs. unfold SaveRam, writer_Flush.
  rewrite Hram, Hbat, Create_fresh by done. cbn [andb].
  by rewrite SaveRam_loop_concat, insert_insert_eq.
Qed.


(** X9: [LoadRam] changes nothing of the controller but its RAM banks: the
    selected banks, the mode and the RAM gate stay; and when it returns an
    error the RAM banks stay too. *)
Theorem LoadRam_changes_only_ram m fs filename m' err :
  LoadRam m fs filename = Some (m', err) →
  m' = set_ramBanks (ramBanks m') m ∧ (err ≠ None → m' = m).
Proof.
  intros Hl. apply LoadRam_only_ramBanks in Hl as (banks' & -> & Herr).
  split; [done|]. intros He. rewrite (Herr He). by destruct m.
Qed.

(** X10: with RAM and battery present, a file of 32768 bytes that [LoadRam]
    loads is the file that [SaveRam] then writes: the four banks are its
    four quarters, in order. *)
Theorem load_then_save_roundtrip m fs filename fileBytes fs2 target :
  hasRAM m = true → hasBattery m = true →
  length (ramBanks m) = 4%nat →
  ReadFile fs filename = inl fileBytes →
  length fileBytes = Z.to_nat 0x8000 →
  (∀ e, fs2 !! target ≠ Some (Faulty e)) →
  ∃ m', LoadRam m fs filename = Some (m', None) ∧
        ramBanks m' = [file_chunk fileBytes 0; file_chunk fileBytes 1;
                       file_chunk fileBytes 2; file_chunk fileBytes 3] ∧
        SaveRam m' fs2 target = (<[target := File fileBytes]> fs2, None).
Proof.
  intros Hram Hbat H4 Hread Hlen Hfs.
  destruct (four_banks _ H4) as (b0 & b1 & b2 & b3 & Hb).
  eexists. split; [|split].
  - unfold LoadRam. rewrite Hram, Hbat, Hread, Hlen, Hb. cbn [andb].
    rewrite Z2Nat.id, Z.eqb_refl by lia. cbn [negb].
    rewrite LoadRam_loop_4 by done. cbn [mbind option_bind]. done.
  - done.
  - rewrite SaveRam_file by done.
    cbn [set_ramBanks ramBanks]. by rewrite file_chunks_concat.
Qed.

(** X11: in a reachable state with RAM enabled and a battery, a byte written
    to an address [a] of 0xA000-0xBFFF is saved at offset
    [bank * 0x2000 + (a - 0xA000)] of the RAM file, [bank] being the bank the
    window is mapped to. *)
Theorem written_byte_in_save_file m a v m' fs filename :
  reachable m →
  hasRAM m = true → ramEnabled m = true → hasBattery m = true →
  0xA000 ≤ a ≤ 0xBFFF →
  Write m a v = Some m' →
  (∀ e, fs !! filename ≠ Some (Faulty e)) →
  ∃ data, SaveRam m' fs filename = (<[filename := File data]> fs, None) ∧
          index data (mapped_ram_bank m * 0x2000 + (a - 0xA000)) = Some v.
Proof.
  intros Hm Hram Hen Hbat Ha Hw Hfs.
  pose proof (reachable_wf m Hm) as Hwf.
  pose proof (Write_wf _ _ _ _ Hwf Hw) as Hwf'.
  pose proof (mapped_ram_bank_range m Hwf) as Hk.
  destruct (Write_same_cartridge _ _ _ _ Hw) as (_ & _ & _ & Hr & Hb & _).
  rewrite Write_ram_mapped in Hw by done.
  apply ram_load_store_eq in Hw. unfold ram_load in Hw.
  destruct (index (ramBanks m') (mapped_ram_bank m)) as [b|] eqn:Hbank;
    [|done].
  cbn [mbind option_bind] in Hw. rewrite Word_sub_small in Hw by lia.
  apply index_Some_iff in Hbank as [_ Hbank].
  apply index_Some_iff in Hw as [_ Hoff].
  destruct (wf_ramBanks m' Hwf') as [_ Hall]; [congruence|].
  exists (concat (ramBanks m')).
  split; [apply SaveRam_file; congruence|].
  apply index_Some_iff. split; [lia|].
  replace (Z.to_nat (mapped_ram_bank m * 0x2000 + (a - 0xA000)))
    with (Z.to_nat (mapped_ram_bank m) * Z.to_nat 0x2000
          + Z.to_nat (a - 0xA000))%nat by lia.
  by eapply concat_lookup.
Qed.


(** ** Further properties of the RAM gate, the modes and the bounds *)

Lemma set_ramEnabled_back m :
  ramEnabled m = true → set_ramEnabled true (set_ramEnabled false m) = m.
Proof. destruct m. cbn. by intros ->. Qed.

Lemma step_keeps_8KB_mode m o m' :
  MaxMemMode m = SIXTEENMB_ROM_8KBRAM → ¬ mode_select o →
  step m o = Some m' →
  MaxMemMode m' = SIXTEENMB_ROM_8KBRAM ∧ ramEnabled m' = ramEnabled m.
Proof using modes_differ.
  intros Hmode Ho. destruct o as [a v|fs filename]; cbn [step].
  - cbn [mode_select] in Ho. unfold Write.
    destruct (mode_8KB_tests _ Hmode) as [-> _]. cbn [andb].
    address_tests; try (by intros [= <-]);
      (destruct (hasRAM m && ramEnabled m); [|by intros [= <-]]);
      (destruct (MaxMemMode m =? _); [|by intros [= <-]]);
      intros Hstore; by apply ram_store_banks in Hstore as (? & -> & _).
  - destruct (LoadRam m fs filename) as [[m1 err]|] eqn:Hl; [|done].
    intros [= <-]. by apply LoadRam_only_ramBanks in Hl as (banks' & -> & _).
Qed.

Lemma index_out_of_range {A : Type} (s : list A) (i : Z) :
  Z.of_nat (length s) ≤ i → index s i = None.
Proof.
  intros Hi. unfold index.
  destruct (Z.ltb_spec i (Z.of_nat (length s))); [lia|].
  by rewrite andb_false_r.
Qed.

Lemma Read_C000_None m :
  wf m → hasRAM m = true → ramEnabled m = true → Read m 0xC000 = None.
Proof.
  intros Hwf Hram Hen. rewrite Read_ram_mapped by (done || lia).
  destruct (wf_ramBanks m Hwf Hram) as [H4 Hall].
  pose proof (mapped_ram_bank_range m Hwf) as Hk.
  destruct (index_Some (ramBanks m) (mapped_ram_bank m)) as [b Hb]; [lia|].
  unfold ram_load. rewrite Hb. cbn [mbind option_bind].
  apply index_out_of_range.
  rewrite (index_Forall _ _ _ _ Hb Hall). by vm_compute.
Qed.

Lemma Read_Some_wf m a :
  wf m → 0 ≤ a < 0x10000 →
  (0x4000 ≤ a < 0x8000 →
   selectedROMBank m < Z.of_nat (length (romBanks m))) →
  ¬ (a = 0xC000 ∧ hasRAM m = true ∧ ramEnabled m = true) →
  ∃ x, Read m a = Some x.
Proof.
  intros Hwf Ha Hsel Hslip.
  destruct (decide (0xA000 ≤ a ≤ 0xC000)) as [Hwin|Hwin].
  - destruct (hasRAM m) eqn:Hram; [destruct (ramEnabled m) eqn:Hen|].
    + rewrite Read_ram_mapped by done.
      apply ram_load_Some; [done | done | by apply mapped_ram_bank_range |].
      destruct (decide (a = 0xC000)) as [->|]; [by destruct Hslip|lia].
    + rewrite Read_ram_window, Hram, Hen by done. by eexists.
    + rewrite Read_ram_window, Hram by done. by eexists.
  - destruct (Z.lt_ge_cases a 0x4000) as [H1|H1].
    { unfold Read. address_tests. apply index_Some.
      rewrite (wf_romBank0 m Hwf). lia. }
    destruct (Z.lt_ge_cases a 0x8000) as [H2|H2].
    { pose proof (wf_selectedROMBank m Hwf) as Hs.
      destruct (index_Some (romBanks m) (selectedROMBank m)) as [b Hb];
        [lia|].
      unfold Read. address_tests.
      rewrite Hb. cbn [mbind option_bind]. apply index_Some.
      rewrite Word_sub_small by lia.
      rewrite (index_Forall _ _ _ _ Hb (wf_romBanks m Hwf)). lia. }
    unfold Read. address_tests; by eexists.
Qed.

Lemma run_keeps_8KB_mode m0 ops m :
  MaxMemMode m0 = SIXTEENMB_ROM_8KBRAM →
  Forall (λ o, ¬ mode_select o) ops →
  run m0 ops = Some m →
  MaxMemMode m = SIXTEENMB_ROM_8KBRAM ∧
  ramEnabled m = ramEnabled m0 ∧ hasRAM m = hasRAM m0.
Proof using modes_differ.
  intros Hmode Hops. revert m0 Hmode.
  induction Hops as [|o ops Ho _ IH]; intros m0 Hmode; cbn [run].
  - by intros [= <-].
  - destruct (step m0 o) as [m1|] eqn:Hs; [|done]. cbn [mbind option_bind].
    destruct (step_same_cartridge _ _ _ Hs) as (_ & _ & _ & Hr & _).
    apply step_keeps_8KB_mode in Hs as [Hmode1 Hen1]; [|done..].
    intros Hrun. destruct (IH m1 Hmode1 Hrun) as (? & ? & ?).
    split; [done|]. split; congruence.
Qed.

(** X12: in 4 MB-ROM/32 KB-RAM mode, closing the RAM gate makes the whole
    window 0xA000-0xC000 read 0x00 and discards the writes to it, and
    opening the gate again gives back the controller as it was: the RAM
    contents are hidden, not lost. *)
Theorem ram_gate_hides_and_keeps m e1 v1 e2 v2 :
  MaxMemMode m = FOURMB_ROM_32KBRAM →
  hasRAM m = true → ramEnabled m = true →
  0x0000 ≤ e1 ≤ 0x1FFF → 0x0000 ≤ e2 ≤ 0x1FFF →
  Z.land v1 0x0F ≠ 0x0A → Z.land v2 0x0F = 0x0A →
  ∃ m1, Write m e1 v1 = Some m1 ∧
        (∀ b, 0xA000 ≤ b ≤ 0xC000 → Read m1 b = Some 0x00) ∧
        (∀ b x, 0xA000 ≤ b ≤ 0xBFFF → Write m1 b x = Some m1) ∧
        Write m1 e2 v2 = Some m.
Proof.
  intros Hmode Hram Hen He1 He2 Hv1 Hv2.
  exists (set_ramEnabled false m). apply Z.eqb_neq in Hv1.
  split; [|split; [|split]].
  - rewrite Write_ram_gate by done.
    by rewrite Hmode, Z.eqb_refl, Hram, Hv1.
  - intros b Hb. rewrite Read_ram_window by done.
    cbn [set_ramEnabled hasRAM ramEnabled]. by rewrite andb_false_r.
  - intros b x Hb. rewrite Write_ram_window by done.
    cbn [set_ramEnabled hasRAM ramEnabled]. by rewrite andb_false_r.
  - rewrite Write_ram_gate by done.
    cbn [set_ramEnabled hasRAM MaxMemMode].
    rewrite Hmode, Z.eqb_refl, Hram, Hv2. cbn [andb].
    change (10 =? 10) with true. by rewrite set_ramEnabled_back.
Qed.

(** X13: a controller fresh from [NewMBC1] is in 16 MB-ROM/8 KB-RAM mode,
    with its RAM enabled exactly when [ramSize > 0]; and it stays so through
    any writes and reloads, as long as none writes to 0x6000-0x7FFF: in this
    mode the RAM gate cannot be closed. *)
Theorem fresh_gate_stays rom romSize ramSize battery m0 ops m :
  NewMBC1 rom romSize ramSize battery = Some m0 →
  Forall (λ o, ¬ mode_select o) ops →
  run m0 ops = Some m →
  MaxMemMode m = SIXTEENMB_ROM_8KBRAM ∧
  ramEnabled m = (0 <? ramSize) ∧ hasRAM m = (0 <? ramSize).
Proof using modes_differ.
  intros Hnew Hops Hrun.
  apply NewMBC1_fields in Hnew as (Hram & Hen & _ & _ & _ & _ & Hmode).
  destruct (run_keeps_8KB_mode _ _ _ Hmode Hops Hrun) as (? & ? & ?).
  split; [done|]. split; congruence.
Qed.

(** X14: the RAM bank selected while in 16 MB-ROM/8 KB-RAM mode is kept, and
    becomes the mapped bank as soon as the mode is switched to
    4 MB-ROM/32 KB-RAM. *)
Theorem bank_select_then_mode_switch m s j md v b :
  hasRAM m = true → ramEnabled m = true →
  0x4000 ≤ s ≤ 0x5FFF → 0x6000 ≤ md ≤ 0x7FFF → Z.land v 0x01 ≠ 0x00 →
  0xA000 ≤ b ≤ 0xBFFF →
  ∃ m2, run m [Op_Write s j; Op_Write md v] = Some m2 ∧
        Read m2 b = ram_load m (Z.land j 0x03) b.
Proof.
  intros Hram Hen Hs Hmd Hv Hb. apply Z.eqb_neq in Hv.
  exists (set_MaxMemMode FOURMB_ROM_32KBRAM
            (switchRAMBank m (Z.land j 0x03))).
  split.
  - cbn [run step]. rewrite Write_ram_bank_select by done.
    cbn [mbind option_bind]. rewrite Write_mode_select by done.
    by rewrite Hv.
  - rewrite Read_ram_window by lia.
    cbn [set_MaxMemMode switchRAMBank hasRAM ramEnabled MaxMemMode
         selectedRAMBank].
    by rewrite Hram, Hen, Z.eqb_refl.
Qed.

(** X15: in every reachable state with RAM present and enabled the read of
    0xC000 panics: the window test of [Read] lets 0xC000 in, and offset
    0x2000 is past the end of the 8 KiB bank. *)
Theorem read_C000_panics m :
  reachable m → hasRAM m = true → ramEnabled m = true →
  Read m 0xC000 = None.
Proof.
  intros Hm. apply Read_C000_None. by apply reachable_wf.
Qed.

(** X16: in a reachable state the read of a 16-bit address panics in two
    cases and no other: an address of 0x4000-0x7FFF while the selected ROM
    bank is not an index of [romBanks], and the address 0xC000 while RAM is
    present and enabled. *)
Theorem read_panics_iff m a :
  reachable m → 0 ≤ a < 0x10000 →
  Read m a = None ↔
  (0x4000 ≤ a < 0x8000 ∧
   Z.of_nat (length (romBanks m)) ≤ selectedROMBank m) ∨
  (a = 0xC000 ∧ hasRAM m = true ∧ ramEnabled m = true).
Proof.
  intros Hm Ha. pose proof (reachable_wf m Hm) as Hwf. split.
  - intros Hnone.
    destruct (decide (a = 0xC000 ∧ hasRAM m = true ∧ ramEnabled m = true))
      as [|Hslip]; [by right|].
    destruct (decide (0x4000 ≤ a < 0x8000 ∧
                      Z.of_nat (length (romBanks m)) ≤ selectedROMBank m))
      as [|Hrom]; [by left|].
    destruct (Read_Some_wf m a) as [x Hx]; [done | done | lia | done |].
    congruence.
  - intros [[Hwin Hsel]|(-> & Hram & Hen)]; [|by apply Read_C000_None].
    unfold Read. address_tests.
    by rewrite index_out_of_range.
Qed.


End Controller.

(** ** The properties at work

    The lemmas below run the controller on the cartridge [demo_cart] and on
    the small state [tiny], with 0 for SIXTEENMB_ROM_8KBRAM and 1 for
    FOURMB_ROM_32KBRAM. *)

Lemma demo_cart_new :
  NewMBC1 0 demo_rom 0x8000 0x8000 true = Some (demo_cart 0).
Proof. vm_compute. reflexivity. Qed.

Lemma demo_cart_reachable : reachable 0 1 (demo_cart 0).
Proof. eapply reachable_new, demo_cart_new. Qed.

Lemma modes_0_1 : (0 : Z) ≠ 1.
Proof. discriminate. Qed.

(** Bank 1 is selected by the value 0x21, the RAM bank and the mode are
    changed, and 0x4005 still reads byte 5 of bank 1. *)
Lemma rom_bank_select_then_read_witness :
  run 0 1 (demo_cart 0)
    [Op_Write 0x2100 0x21; Op_Write 0x4000 0x02; Op_Write 0x6000 0x01]
  = Some (set_MaxMemMode 1 (switchRAMBank (switchROMBank (demo_cart 0) 1) 2)) ∧
  Read 0 1 (set_MaxMemMode 1 (switchRAMBank (switchROMBank (demo_cart 0) 1) 2))
    0x4005 = Some 74.
Proof.
  assert (Hrun : run 0 1 (demo_cart 0)
    [Op_Write 0x2100 0x21; Op_Write 0x4000 0x02; Op_Write 0x6000 0x01]
    = Some (set_MaxMemMode 1
              (switchRAMBank (switchROMBank (demo_cart 0) 1) 2)))
    by (vm_compute; reflexivity).
  split; [exact Hrun|].
  destruct (rom_bank_select_then_read 0 1 (demo_cart 0) 0x2100 0x21
              [Op_Write 0x4000 0x02; Op_Write 0x6000 0x01]
              (set_MaxMemMode 1
                 (switchRAMBank (switchROMBank (demo_cart 0) 1) 2))
              0x4005 (drop (Z.to_nat 0x4000) demo_rom))
    as (_ & _ & Hread & _).
  - lia.
  - repeat constructor; simpl; lia.
  - exact Hrun.
  - lia.
  - vm_compute. reflexivity.
  - rewrite Hread. vm_compute. reflexivity.
Defined.

Lemma read_bank0_witness :
  reachable 0 1 (demo_cart 0) ∧
  ∃ x, index (romBank0 (demo_cart 0)) 0x0105 = Some x ∧
       Read 0 1 (demo_cart 0) 0x0105 = Some x.
Proof.
  split; [exact demo_cart_reachable|].
  apply (read_bank0 0 1 (demo_cart 0) 0x0105);
    [exact demo_cart_reachable | lia].
Defined.

(** C3 as the specification has it fails: on the fresh cartridge, whose RAM
    is present and enabled, the read of 0xC000 indexes an 8 KiB bank at
    0x2000; and once bank 31 is selected on this cartridge of 2 banks, the
    read of 0x4000 indexes [romBanks] at 31. *)
Lemma read_total_counterexample :
  (reachable 0 1 (demo_cart 0) ∧ Read 0 1 (demo_cart 0) 0xC000 = None) ∧
  (reachable 0 1 (switchROMBank (demo_cart 0) 0x1F) ∧
   Read 0 1 (switchROMBank (demo_cart 0) 0x1F) 0x4000 = None) ∧
  ¬ (∀ m a, reachable 0 1 m → 0 ≤ a < 0x10000 →
            ∃ x, Read 0 1 m a = Some x).
Proof.
  assert (H1 : Read 0 1 (demo_cart 0) 0xC000 = None)
    by (vm_compute; reflexivity).
  split; [split; [exact demo_cart_reachable | exact H1]|].
  split.
  - split; [|vm_compute; reflexivity].
    apply (reachable_write 0 1 (demo_cart 0) 0x2000 0x1F);
      [exact demo_cart_reachable | lia | lia | reflexivity].
  - intros Hall.
    destruct (Hall (demo_cart 0) 0xC000 demo_cart_reachable) as [x Hx];
      [lia|].
    rewrite H1 in Hx. discriminate.
Qed.

(** On the fresh cartridge bank 0 of its 2 ROM banks is selected and 0x4005
    reads a byte; once the mode is 4 MB-ROM/32 KB-RAM and the RAM gate is
    closed, the address 0xC000 reads 0x00. *)
Lemma read_yields_byte_witness :
  (reachable 0 1 (demo_cart 0) ∧
   selectedROMBank (demo_cart 0) < Z.of_nat (length (romBanks (demo_cart 0))) ∧
   ∃ x, Read 0 1 (demo_cart 0) 0x4005 = Some x) ∧
  reachable 0 1 (set_ramEnabled false (set_MaxMemMode 1 (demo_cart 0))) ∧
  Read 0 1 (set_ramEnabled false (set_MaxMemMode 1 (demo_cart 0))) 0xC000
  = Some 0x00.
Proof.
  assert (Hm : reachable 0 1
                 (set_ramEnabled false (set_MaxMemMode 1 (demo_cart 0)))).
  { apply (reachable_write 0 1 (set_MaxMemMode 1 (demo_cart 0)) 0x0000 0x00);
      [|lia|lia|reflexivity].
    apply (reachable_write 0 1 (demo_cart 0) 0x6000 0x01);
      [exact demo_cart_reachable|lia|lia|reflexivity]. }
  split; [split; [exact demo_cart_reachable | split; [reflexivity|]]|].
  - destruct (read_yields_byte 0 1 (demo_cart 0) 0x4005 demo_cart_reachable)
      as (x & Hx & _); [lia | intros _; reflexivity | intros (H & _); lia |].
    exists x. exact Hx.
  - split; [exact Hm|].
    destruct (read_yields_byte 0 1 _ 0xC000 Hm) as (x & Hx & H0);
      [lia | lia | intros (_ & _ & H); discriminate H |].
    rewrite Hx. f_equal. apply H0. right. right. split; [lia|].
    right. reflexivity.
Defined.

(** In 8 KB-RAM mode, with RAM bank 3 selected, the RAM window is bank 0. *)
Lemma ram_bank_0_in_8KB_mode_witness :
  ∃ m1, Write 0 1 (tiny 0 true false) 0x4000 0x03 = Some m1 ∧
        m1 = switchRAMBank (tiny 0 true false) (Z.land 0x03 0x03) ∧
        Read 0 1 m1 0xA001 = index [10; 11; 12] (0xA001 - 0xA000) ∧
        Write 0 1 m1 0xA001 0x55 =
          (bank0' ← store [10; 11; 12] (0xA001 - 0xA000) 0x55;
           Some (set_ramBanks
                   (bank0' :: [[20; 21; 22]; [30; 31; 32]; [40; 41; 42]]) m1)).
Proof.
  apply (ram_bank_0_in_8KB_mode 0 1 modes_0_1 (tiny 0 true false)
           0x4000 0x03 0xA001 0x55 [10; 11; 12]
           [[20; 21; 22]; [30; 31; 32]; [40; 41; 42]]);
    try reflexivity; lia.
Defined.

Lemma ram_gate_write_witness :
  0x0000 ≤ 0x0000 ≤ 0x1FFF ∧
  Write 0 1 (tiny 1 false false) 0x0000 0x0A
  = Some (set_ramEnabled true (tiny 1 false false)) ∧
  Write 0 1 (tiny 1 true false) 0x0000 0x0B
  = Some (set_ramEnabled false (tiny 1 true false)) ∧
  Write 0 1 (tiny 0 true false) 0x0000 0x0B = Some (tiny 0 true false).
Proof.
  split; [lia|]. split; [|split].
  - destruct (ram_gate_write 0 1 modes_0_1 (tiny 1 false false) 0x0000 0x0A)
      as (H & _); [lia|].
    apply H; reflexivity.
  - destruct (ram_gate_write 0 1 modes_0_1 (tiny 1 true false) 0x0000 0x0B)
      as (_ & H & _); [lia|].
    apply H; [reflexivity | reflexivity | discriminate].
  - destruct (ram_gate_write 0 1 modes_0_1 (tiny 0 true false) 0x0000 0x0B)
      as (_ & _ & H & _); [lia|].
    apply H. left. reflexivity.
Defined.

(** The fresh cartridge, put in 32 KB-RAM mode with its RAM gate closed:
    the write of 0xAB to 0xA010 is lost. *)
Lemma disabled_ram_write_discarded_witness :
  run 0 1 (demo_cart 0) [Op_Write 0x6000 0x01; Op_Write 0x0000 0x00]
  = Some (set_ramEnabled false (set_MaxMemMode 1 (demo_cart 0))) ∧
  ∃ m2, run 0 1 (set_ramEnabled false (set_MaxMemMode 1 (demo_cart 0)))
          [Op_Write 0xA010 0xAB; Op_Write 0x0000 0x0A] = Some m2 ∧
        Read 0 1 m2 0xA010 = Some 0x00.
Proof.
  assert (Hrun : run 0 1 (demo_cart 0)
                   [Op_Write 0x6000 0x01; Op_Write 0x0000 0x00]
                 = Some (set_ramEnabled false
                           (set_MaxMemMode 1 (demo_cart 0))))
    by reflexivity.
  split; [exact Hrun|].
  destruct (disabled_ram_write_discarded 0 1
              (set_ramEnabled false (set_MaxMemMode 1 (demo_cart 0)))
              0xA010 0xAB) as (_ & _ & H);
    [reflexivity | reflexivity | lia |].
  apply (H demo_rom 0x8000 0x8000 true (demo_cart 0) 0x0000 0x0A);
    [exact demo_cart_new | exact Hrun | lia | reflexivity].
Defined.

(** A controller whose RAM banks hold 1s, 2s, 3s and 4s is saved to a new
    file, and the file is loaded in the fresh cartridge. *)
Lemma save_then_load_roundtrip_witness :
  ∃ fs',
    SaveRam
      (set_ramBanks ((λ k, replicate (Z.to_nat 0x2000) k) <$> [1; 2; 3; 4])
         (demo_cart 0)) ∅ "game.sav" = (fs', None) ∧
    ReadFile fs' "game.sav"
    = inl (concat ((λ k, replicate (Z.to_nat 0x2000) k) <$> [1; 2; 3; 4])) ∧
    length (concat ((λ k, replicate (Z.to_nat 0x2000) k) <$> [1; 2; 3; 4]))
    = Z.to_nat 0x8000 ∧
    LoadRam (demo_cart 0) fs' "game.sav"
    = Some (set_ramBanks
              ((λ k, replicate (Z.to_nat 0x2000) k) <$> [1; 2; 3; 4])
              (demo_cart 0), None).
Proof.
  pose proof (save_then_load_roundtrip
                (set_ramBanks
                   ((λ k, replicate (Z.to_nat 0x2000) k) <$> [1; 2; 3; 4])
                   (demo_cart 0)) (demo_cart 0) ∅ "game.sav") as H.
  cbn [ramBanks set_ramBanks] in H.
  apply H; try reflexivity.
  - repeat constructor; apply length_replicate.
  - intros e. rewrite lookup_empty. discriminate.
Defined.

(** A RAM file of 100 bytes. *)
Lemma load_wrong_length_witness :
  ReadFile {[ "game.sav" := File (replicate 100 0x07) ]} "game.sav"
  = inl (replicate 100 0x07) ∧
  LoadRam (demo_cart 0) {[ "game.sav" := File (replicate 100 0x07) ]}
    "game.sav"
  = Some (demo_cart 0, Some (ErrNew "RAM file is not 32768 bytes!")).
Proof.
  assert (Hread :
    ReadFile {[ "game.sav" := File (replicate 100 0x07) ]} "game.sav"
    = inl (replicate 100 0x07))
    by (unfold ReadFile; rewrite lookup_singleton_eq; reflexivity).
  split; [exact Hread|].
  apply (load_wrong_length (demo_cart 0) _ "game.sav" (replicate 100 0x07));
    [reflexivity | reflexivity | exact Hread | rewrite length_replicate; lia].
Defined.

Lemma load_missing_file_witness :
  ReadFile ∅ "game.sav" = inr ErrNotExist ∧
  LoadRam (demo_cart 0) ∅ "game.sav" = Some (demo_cart 0, None) ∧
  ramBanks (demo_cart 0) = replicate 4 (replicate (Z.to_nat 0x2000) 0x00).
Proof.
  assert (Hread : ReadFile ∅ "game.sav" = inr ErrNotExist)
    by (unfold ReadFile; rewrite lookup_empty; reflexivity).
  split; [exact Hread|].
  destruct (load_missing_file 0 (demo_cart 0) ∅ "game.sav" ErrNotExist)
    as [Hload Hfresh]; [reflexivity | reflexivity | exact Hread | reflexivity |].
  split; [exact Hload|].
  apply (Hfresh demo_rom 0x8000 0x8000 true), demo_cart_new.
Defined.

(** A cartridge with RAM and no battery, and a RAM file of 3 bytes. *)
Lemma load_without_ram_or_battery_witness :
  hasBattery (tiny 0 true false) = false ∧
  LoadRam (tiny 0 true false) {[ "game.sav" := File [1; 2; 3] ]} "game.sav"
  = Some (tiny 0 true false, None).
Proof.
  split; [reflexivity|].
  apply load_without_ram_or_battery. right. reflexivity.
Defined.

(** *** The further properties at work *)

Lemma ram_write_then_read_witness :
  reachable 0 1 (demo_cart 0) ∧
  ∃ m', Write 0 1 (demo_cart 0) 0xA010 0xAB = Some m' ∧
        Read 0 1 m' 0xA010 = Some 0xAB.
Proof.
  split; [exact demo_cart_reachable|].
  apply (ram_write_then_read 0 1 (demo_cart 0) 0xA010 0xAB);
    [exact demo_cart_reachable | reflexivity | reflexivity | lia].
Defined.

(** In 32 KB-RAM mode with bank 2 selected, 0x55 goes to byte 1 of bank 2;
    byte 2 reads as before. *)
Lemma ram_write_other_addresses_witness :
  Write 0 1 (tiny 1 true false) 0xA001 0x55
  = Some (set_ramBanks
            [[10; 11; 12]; [20; 21; 22]; [30; 0x55; 32]; [40; 41; 42]]
            (tiny 1 true false)) ∧
  Read 0 1 (set_ramBanks
              [[10; 11; 12]; [20; 21; 22]; [30; 0x55; 32]; [40; 41; 42]]
              (tiny 1 true false)) 0xA002
  = Read 0 1 (tiny 1 true false) 0xA002.
Proof.
  split; [reflexivity|].
  apply (ram_write_other_addresses 0 1 (tiny 1 true false) 0xA001 0x55);
    [lia | reflexivity | lia | lia].
Defined.

(** The byte 0x55 written through bank 2 does not show through bank 1. *)
Lemma ram_bank_isolation_witness :
  Z.land 0x01 0x03 ≠ selectedRAMBank (tiny 1 true false) ∧
  ∃ m2, Write 0 1 (set_ramBanks
                     [[10; 11; 12]; [20; 21; 22]; [30; 0x55; 32];
                      [40; 41; 42]] (tiny 1 true false)) 0x4000 0x01
        = Some m2 ∧
        Read 0 1 m2 0xA001 = ram_load (tiny 1 true false) (Z.land 0x01 0x03)
                               0xA001.
Proof.
  split; [discriminate|].
  apply (ram_bank_isolation 0 1 (tiny 1 true false) 0xA001 0x55 0x4000 0x01);
    [reflexivity | reflexivity | reflexivity | lia | lia | discriminate
    | reflexivity].
Defined.

Lemma write_never_panics_witness :
  reachable 0 1 (demo_cart 0) ∧
  ∃ m', Write 0 1 (demo_cart 0) 0xBFFF 0xFF = Some m'.
Proof.
  split; [exact demo_cart_reachable|].
  apply (write_never_panics 0 1 (demo_cart 0) 0xBFFF 0xFF);
    [exact demo_cart_reachable | lia].
Defined.

Lemma load_never_panics_witness :
  reachable 0 1 (demo_cart 0) ∧
  ∃ m' err,
    LoadRam (demo_cart 0) {[ "game.sav" := File (replicate 100 0x07) ]}
      "game.sav" = Some (m', err).
Proof.
  split; [exact demo_cart_reachable|].
  apply (load_never_panics 0 1 (demo_cart 0)), demo_cart_reachable.
Defined.

Lemma reachable_invariant_witness :
  reachable 0 1 (switchROMBank (demo_cart 0) 0x1F) ∧
  0 ≤ selectedROMBank (switchROMBank (demo_cart 0) 0x1F) < 32.
Proof.
  assert (Hm : reachable 0 1 (switchROMBank (demo_cart 0) 0x1F)).
  { apply (reachable_write 0 1 (demo_cart 0) 0x2000 0x1F);
      [exact demo_cart_reachable | lia | lia | reflexivity]. }
  split; [exact Hm|].
  destruct (reachable_invariant 0 1 _ Hm) as (_ & _ & _ & _ & H & _).
  exact H.
Defined.

Lemma run_same_cartridge_witness :
  run 0 1 (tiny 0 true false) [Op_Write 0x2000 0x01; Op_Write 0xA000 0x09]
  = Some (set_ramBanks
            [[0x09; 11; 12]; [20; 21; 22]; [30; 31; 32]; [40; 41; 42]]
            (switchROMBank (tiny 0 true false) 1)) ∧
  same_cartridge (tiny 0 true false)
    (set_ramBanks
       [[0x09; 11; 12]; [20; 21; 22]; [30; 31; 32]; [40; 41; 42]]
       (switchROMBank (tiny 0 true false) 1)).
Proof.
  split; [reflexivity|].
  apply (run_same_cartridge 0 1 (tiny 0 true false)
           [Op_Write 0x2000 0x01; Op_Write 0xA000 0x09]).
  reflexivity.
Defined.


(** A file of 3 bytes: the error comes back and the controller is the
    same. *)
Lemma LoadRam_changes_only_ram_witness :
  LoadRam (tiny 0 true true) {[ "game.sav" := File [1; 2; 3] ]} "game.sav"
  = Some (tiny 0 true true, Some (ErrNew "RAM file is not 32768 bytes!")) ∧
  tiny 0 true true = set_ramBanks (ramBanks (tiny 0 true true))
                       (tiny 0 true true).
Proof.
  assert (Hload :
    LoadRam (tiny 0 true true) {[ "game.sav" := File [1; 2; 3] ]} "game.sav"
    = Some (tiny 0 true true, Some (ErrNew "RAM file is not 32768 bytes!"))).
  { unfold LoadRam, ReadFile. rewrite lookup_singleton_eq. reflexivity. }
  split; [exact Hload|].
  destruct (LoadRam_changes_only_ram _ _ _ _ _ Hload) as (H & _).
  exact H.
Defined.

(** A file of 32768 bytes 0x05 is loaded in the fresh cartridge and saved
    under another name. *)
Lemma load_then_save_roundtrip_witness :
  ∃ m',
    LoadRam (demo_cart 0)
      {[ "game.sav" := File (replicate (Z.to_nat 0x8000) 0x05) ]} "game.sav"
    = Some (m', None) ∧
    ramBanks m'
    = [file_chunk (replicate (Z.to_nat 0x8000) 0x05) 0;
       file_chunk (replicate (Z.to_nat 0x8000) 0x05) 1;
       file_chunk (replicate (Z.to_nat 0x8000) 0x05) 2;
       file_chunk (replicate (Z.to_nat 0x8000) 0x05) 3] ∧
    SaveRam m' ∅ "copy.sav"
    = (<[ "copy.sav" := File (replicate (Z.to_nat 0x8000) 0x05) ]> ∅, None).
Proof.
  apply (load_then_save_roundtrip (demo_cart 0)
           {[ "game.sav" := File (replicate (Z.to_nat 0x8000) 0x05) ]}
           "game.sav" (replicate (Z.to_nat 0x8000) 0x05) ∅ "copy.sav").
  - reflexivity.
  - reflexivity.
  - reflexivity.
  - unfold ReadFile. rewrite lookup_singleton_eq. reflexivity.
  - apply length_replicate.
  - intros e. rewrite lookup_empty. discriminate.
Defined.

(** On the fresh cartridge the window is mapped to bank 0: the byte written
    at 0xA010 is byte 0x10 of the RAM file. *)
Lemma written_byte_in_save_file_witness :
  Write 0 1 (demo_cart 0) 0xA010 0xAB
  = Some (set_ramBanks
            (<[0%nat := <[16%nat := 0xAB]> (replicate (Z.to_nat 0x2000) 0)]>
               (populateRAMBanks 4)) (demo_cart 0)) ∧
  ∃ data,
    SaveRam (set_ramBanks
               (<[0%nat := <[16%nat := 0xAB]> (replicate (Z.to_nat 0x2000) 0)]>
                  (populateRAMBanks 4)) (demo_cart 0)) ∅ "game.sav"
    = (<[ "game.sav" := File data ]> ∅, None) ∧
    index data (mapped_ram_bank 1 (demo_cart 0) * 0x2000 + (0xA010 - 0xA000))
    = Some 0xAB.
Proof.
  assert (Hw : Write 0 1 (demo_cart 0) 0xA010 0xAB
    = Some (set_ramBanks
              (<[0%nat := <[16%nat := 0xAB]> (replicate (Z.to_nat 0x2000) 0)]>
                 (populateRAMBanks 4)) (demo_cart 0)))
    by (vm_compute; reflexivity).
  split; [exact Hw|].
  apply (written_byte_in_save_file 0 1 (demo_cart 0) 0xA010 0xAB);
    [exact demo_cart_reachable | reflexivity | reflexivity | reflexivity
    | lia | exact Hw |].
  intros e. rewrite lookup_empty. discriminate.
Defined.

Lemma ram_gate_hides_and_keeps_witness :
  ∃ m1, Write 0 1 (tiny 1 true false) 0x0000 0x00 = Some m1 ∧
        (∀ b, 0xA000 ≤ b ≤ 0xC000 → Read 0 1 m1 b = Some 0x00) ∧
        (∀ b x, 0xA000 ≤ b ≤ 0xBFFF → Write 0 1 m1 b x = Some m1) ∧
        Write 0 1 m1 0x1FFF 0x0A = Some (tiny 1 true false).
Proof.
  apply (ram_gate_hides_and_keeps 0 1 (tiny 1 true false)
           0x0000 0x00 0x1FFF 0x0A);
    [reflexivity | reflexivity | reflexivity | lia | lia | discriminate
    | reflexivity].
Defined.

(** The fresh cartridge: a write of 0x00 to 0x0000 and a RAM bank select
    leave the mode and the open RAM gate. *)
Lemma fresh_gate_stays_witness :
  run 0 1 (demo_cart 0) [Op_Write 0x0000 0x00; Op_Write 0x4000 0x02]
  = Some (switchRAMBank (demo_cart 0) 2) ∧
  MaxMemMode (switchRAMBank (demo_cart 0) 2) = 0 ∧
  ramEnabled (switchRAMBank (demo_cart 0) 2) = (0 <? 0x8000) ∧
  hasRAM (switchRAMBank (demo_cart 0) 2) = (0 <? 0x8000).
Proof.
  assert (Hrun :
    run 0 1 (demo_cart 0) [Op_Write 0x0000 0x00; Op_Write 0x4000 0x02]
    = Some (switchRAMBank (demo_cart 0) 2)) by reflexivity.
  split; [exact Hrun|].
  apply (fresh_gate_stays 0 1 modes_0_1 demo_rom 0x8000 0x8000 true
           (demo_cart 0) [Op_Write 0x0000 0x00; Op_Write 0x4000 0x02]);
    [exact demo_cart_new | | exact Hrun].
  repeat constructor; simpl; lia.
Defined.

Lemma bank_select_then_mode_switch_witness :
  ∃ m2, run 0 1 (tiny 0 true false)
          [Op_Write 0x4000 0x03; Op_Write 0x6000 0x01] = Some m2 ∧
        Read 0 1 m2 0xA001
        = ram_load (tiny 0 true false) (Z.land 0x03 0x03) 0xA001.
Proof.
  apply (bank_select_then_mode_switch 0 1 (tiny 0 true false)
           0x4000 0x03 0x6000 0x01 0xA001);
    [reflexivity | reflexivity | lia | lia | discriminate | lia].
Defined.

Lemma read_C000_panics_witness :
  reachable 0 1 (demo_cart 0) ∧ Read 0 1 (demo_cart 0) 0xC000 = None.
Proof.
  split; [exact demo_cart_reachable|].
  apply (read_C000_panics 0 1 (demo_cart 0));
    [exact demo_cart_reachable | reflexivity | reflexivity].
Defined.

(** On the fresh cartridge, with bank 0 of 2 selected, 0x4000 is read. *)
Lemma read_panics_iff_witness :
  reachable 0 1 (demo_cart 0) ∧
  Read 0 1 (demo_cart 0) 0x4000 ≠ None.
Proof.
  split; [exact demo_cart_reachable|].
  intros Hnone.
  apply (read_panics_iff 0 1 (demo_cart 0) 0x4000 demo_cart_reachable)
    in Hnone; [|lia].
  destruct Hnone as [[_ H]|[H _]]; [|discriminate H].
  vm_compute in H. apply H. reflexivity.
Defined.
